(** * Trucking Analytics dashboard (loadapp.py): model and verified properties

    The program is a Streamlit script.  It reads a spreadsheet of freight
    loads with pandas, derives a [Net Profit] column, narrows the table with
    six conjunctive filters, and shows four KPIs and four grouped aggregates.

    The embedding follows the script line by line:
    - [Py]  : the Python notions the script relies on (exceptions, truthiness,
              [sorted]);
    - [Pd]  : the pandas operations the script calls, on typed columns;
    - [St]  : the Streamlit elements the script renders, and the script monad
              (rendered output + exception);
    - [App] : loadapp.py itself;
    - [Xlsx]: the workbook [to_excel] writes;
    - [Np]  : the arithmetic of line 48 on int64 and float64 arrays.

    Modelling choices.
    - In [Pd] and [App] currency and rate cells are exact rationals and a
      missing numeric cell (NaN) is [None]: filtering, grouping and the page
      depend on which cells are present and on their order, not on rounding.
      The rounding of the one arithmetic statement, line 48, is the subject
      of [Np], where a column is the int64 or float64 array pandas holds.
    - Cells are typed.  Categorical cells are strings in every row; the
      pickup date is a timestamp in the file and a calendar day once loaded.
      A sheet with a blank categorical cell, or with text in the date or in
      a numeric column, is outside the model: there [sorted], [to_datetime]
      or the subtraction of line 48 raises, and the handler of line 140
      shows the message.
    - [st.date_input] is taken to accept the defaults it is given; on a
      table without rows they are missing and Streamlit's own validation
      of them is outside the model.
    - A frame carries the list of its column labels next to its rows: every
      column access goes through [Pd.getitem], which raises [KeyError] on a
      label the frame does not have, so a field whose column is absent from
      the header is never observed.
    - Rows keep the index label pandas gave them when the file was read. *)

From Stdlib Require Import List String Ascii Bool Arith ZArith QArith Lia.
From Stdlib Require Import Permutation Sorting.Sorted Setoid Morphisms.
From Stdlib Require Import SpecFloat.
Import ListNotations.

Set Implicit Arguments.
Unset Strict Implicit.

(* ===================================================================== *)
(** ** Python *)
(* ===================================================================== *)

Module Py.

(** The exceptions the script can meet.  [str] is what an f-string shows
    for [{e}]. *)
Inductive Exception : Type :=
| FileNotFoundError (path : string)
| ValueError (msg : string)
| KeyError (key : string).

Definition str (e : Exception) : string :=
  match e with
  | FileNotFoundError path =>
      ("[Errno 2] No such file or directory: '" ++ path ++ "'")%string
  | ValueError msg => msg
  | KeyError key => ("'" ++ key ++ "'")%string
  end.

(** A computation that returns or raises. *)
Inductive result (A : Type) : Type :=
| OK (a : A)
| Raise (e : Exception).
Arguments OK {A} a.
Arguments Raise {A} e.

Definition bind {A B} (c : result A) (k : A -> result B) : result B :=
  match c with
  | OK a => k a
  | Raise e => Raise e
  end.

(** Truth value of a list: [if sel:] holds for a non-empty list. *)
Definition truthy {A} (l : list A) : bool :=
  match l with
  | [] => false
  | _ :: _ => true
  end.

Section Sorted.
Variable A : Type.
Variable leb : A -> A -> bool.

(** [sorted] is stable: an element is placed before the first element
    that is not smaller than it. *)
Fixpoint insert (x : A) (l : list A) : list A :=
  match l with
  | [] => [x]
  | y :: l' => if leb x y then x :: y :: l' else y :: insert x l'
  end.

Definition sorted (l : list A) : list A := fold_right insert [] l.
End Sorted.

End Py.

Declare Scope py_scope.
Delimit Scope py_scope with py.
Notation "x <- c ;; k" := (Py.bind c (fun x => k))
  (at level 61, c at next level, right associativity) : py_scope.

(* ===================================================================== *)
(** ** pandas *)
(* ===================================================================== *)

Module Pd.
Import Py.
Local Open Scope py_scope.

(** A calendar day, counted in days since 1970-01-01, and a timestamp in
    nanoseconds since the same instant. *)
Definition date := Z.
Definition Timestamp := Z.
Definition ns_per_day : Z := 86400000000000.

(** A numeric cell; [None] is NaN. *)
Definition number := option Q.

(** A column.  Position [i] of a series taken from a frame is the value
    of the frame's row at position [i]. *)
Definition Series (A : Type) := list A.

(** A frame: column labels, and the rows with their index labels. *)
Record DataFrame (R : Type) : Type := mkFrame {
  columns : list string;
  rows : list (nat * R)
}.

Definition has_column {R} (df : DataFrame R) (name : string) : bool :=
  existsb (String.eqb name) (columns df).

(** [df[name]]: the column [name], read from each row by [field]. *)
Definition getitem {R A} (df : DataFrame R) (name : string) (field : R -> A)
  : result (Series A) :=
  if has_column df name
  then OK (map (fun ir => field (snd ir)) (rows df))
  else Raise (KeyError name).

(** Element-wise combination of two aligned series. *)
Fixpoint map2 {A B C} (f : A -> B -> C) (a : Series A) (b : Series B)
  : Series C :=
  match a, b with
  | x :: a', y :: b' => f x y :: map2 f a' b'
  | _, _ => []
  end.

(** [s.fillna(v)] *)
Definition fillna (s : Series number) (v : Q) : Series number :=
  map (fun x => match x with Some q => Some q | None => Some v end) s.

(** Arithmetic on cells: NaN is absorbing. *)
Definition cell_add (x y : number) : number :=
  match x, y with
  | Some a, Some b => Some (a + b)%Q
  | _, _ => None
  end.

Definition cell_sub (x y : number) : number :=
  match x, y with
  | Some a, Some b => Some (a - b)%Q
  | _, _ => None
  end.

Definition add (a b : Series number) : Series number := map2 cell_add a b.
Definition sub (a b : Series number) : Series number := map2 cell_sub a b.

(** [pd.to_datetime(s)] on a column of timestamps, and [s.dt.date]. *)
Definition to_datetime (s : Series Timestamp) : Series Timestamp := s.
Definition dt_date (s : Series Timestamp) : Series date :=
  map (fun ns => (ns / ns_per_day)%Z) s.

(** [s.isin(values)] *)
Definition isin (s : Series string) (values : list string) : Series bool :=
  map (fun v => existsb (String.eqb v) values) s.

(** [s >= d], [s <= d] and [m1 & m2] *)
Definition ge (s : Series date) (d : date) : Series bool :=
  map (fun v => (d <=? v)%Z) s.
Definition le (s : Series date) (d : date) : Series bool :=
  map (fun v => (v <=? d)%Z) s.
Definition mask_and (a b : Series bool) : Series bool := map2 andb a b.

(** Selection of the positions a boolean mask marks. *)
Fixpoint select {A} (l : list A) (mask : Series bool) : list A :=
  match l, mask with
  | x :: l', b :: mask' =>
      if b then x :: select l' mask' else select l' mask'
  | _, _ => []
  end.

(** [df[mask]]: boolean indexing keeps labels, columns and order. *)
Definition loc {R} (df : DataFrame R) (mask : Series bool) : DataFrame R :=
  {| columns := columns df; rows := select (rows df) mask |}.

(** [df.copy()]: a frame with the same content.  Nothing in the script
    writes to a frame after it is loaded, so the copy is the value. *)
Definition copy {R} (df : DataFrame R) : DataFrame R := df.

(** [len(df)] *)
Definition len {R} (df : DataFrame R) : nat := List.length (rows df).

(** [df.empty]: an axis of length 0. *)
Definition empty {R} (df : DataFrame R) : bool :=
  match rows df, columns df with
  | _ :: _, _ :: _ => false
  | _, _ => true
  end.

(** [s.sum()] skips NaN and is 0 on nothing. *)
Definition sum (s : Series number) : Q :=
  fold_left (fun acc x => match x with Some q => (acc + q)%Q | None => acc end)
    s 0%Q.

(** [s.mean()] averages the cells that are not NaN; NaN when there is
    none. *)
Definition count (s : Series number) : nat :=
  List.length (filter (fun x => match x with Some _ => true | None => false end) s).

Definition mean (s : Series number) : number :=
  match count s with
  | O => None
  | S _ => Some (sum s / inject_Z (Z.of_nat (count s)))%Q
  end.

(** [s.min()], [s.max()] on a column of days; nothing on an empty one. *)
Definition min (s : Series date) : option date :=
  match s with
  | [] => None
  | d :: s' => Some (fold_left Z.min s' d)
  end.

Definition max (s : Series date) : option date :=
  match s with
  | [] => None
  | d :: s' => Some (fold_left Z.max s' d)
  end.

Section Keys.
Variable K : Type.
Variable eqb : K -> K -> bool.
Variable leb : K -> K -> bool.

(** [s.unique()]: the distinct values in order of first appearance. *)
Fixpoint unique_from (seen : list K) (s : Series K) : list K :=
  match s with
  | [] => []
  | x :: s' =>
      if existsb (eqb x) seen then unique_from seen s'
      else x :: unique_from (x :: seen) s'
  end.

Definition unique (s : Series K) : list K := unique_from [] s.

(** [df.groupby(key)[value].sum().reset_index()]: one line per distinct
    key, keys ascending, the values of the key's rows summed. *)
Definition groupby_sum (keys : Series K) (values : Series number)
  : list (K * Q) :=
  map (fun k => (k, sum (select values (map (eqb k) keys))))
      (sorted leb (unique keys)).

(** [s.value_counts().reset_index()]: one line per distinct value with
    its number of occurrences, most frequent first. *)
Definition value_counts (s : Series K) : list (K * nat) :=
  sorted (fun a b => (snd b <=? snd a)%nat)
         (map (fun k => (k, List.length (filter (eqb k) s))) (unique s)).
End Keys.

End Pd.

(* ===================================================================== *)
(** ** Streamlit *)
(* ===================================================================== *)

Module St.
Import Py.

(** The fixed HTML fragments the script hands to [st.markdown]. *)
Inductive Html : Type :=
| page_style
| page_title
| filter_box_open
| filter_box_close.

(** What [st.date_input] returns: one day, or a tuple of the days picked
    so far (none, the start, or start and end). *)
Inductive DateValue : Type :=
| SingleDate (d : Pd.date)
| DateTuple (ds : list Pd.date).

(** The number a metric shows (its text formatting is left out). *)
Inductive Value : Type :=
| Money (q : Q)
| Rate (v : Pd.number)
| Count (n : nat).

(** A plotly figure: its kind, title and data. *)
Inductive Figure : Type :=
| Bar (title : string) (data : list (string * Q))
| Line (title : string) (data : list (Pd.date * Q))
| BarCount (title : string) (data : list (string * nat))
| Pie (title : string) (data : list (string * Q)).

(** An element on the page.  [D] is what a download button serves. *)
Inductive Element (D : Type) : Type :=
| PageConfig (page_title layout : string)
| Markdown (body : Html)
| Multiselect (label : string) (options : list string)
| DateInput (label : string) (min_value max_value : option Pd.date)
| Metric (label : string) (value : Value)
| PlotlyChart (fig : Figure)
| DownloadButton (label : string) (data : D) (file_name : string)
| Error (body : string).
Arguments PageConfig {D}.
Arguments Markdown {D}.
Arguments Multiselect {D}.
Arguments DateInput {D}.
Arguments Metric {D}.
Arguments PlotlyChart {D}.
Arguments DownloadButton {D}.
Arguments Error {D}.

Section Script.
Variable D : Type.

(** A script run: it appends to the page rendered so far, and returns
    or raises. *)
Definition Script (A : Type) : Type :=
  list (Element D) -> list (Element D) * result A.

Definition ret {A} (a : A) : Script A := fun page => (page, OK a).

Definition bind {A B} (c : Script A) (k : A -> Script B) : Script B :=
  fun page =>
    match c page with
    | (page', OK a) => k a page'
    | (page', Raise e) => (page', Raise e)
    end.

Definition lift {A} (r : result A) : Script A := fun page => (page, r).

Definition render (e : Element D) : Script unit :=
  fun page => (page ++ [e], OK tt).

(** [try: body except Exception as e: handler(e)] *)
Definition try_except (body : Script unit)
           (handler : Exception -> Script unit) : Script unit :=
  fun page =>
    match body page with
    | (page', OK _) => (page', OK tt)
    | (page', Raise e) => handler e page'
    end.

(** Widgets render themselves and return what the user has chosen. *)
Definition set_page_config (page_title layout : string) : Script unit :=
  render (PageConfig page_title layout).
Definition markdown (body : Html) : Script unit := render (Markdown body).
Definition multiselect (label : string) (options chosen : list string)
  : Script (list string) :=
  bind (render (Multiselect label options)) (fun _ => ret chosen).
Definition date_input (label : string) (min_value max_value : option Pd.date)
           (chosen : DateValue) : Script DateValue :=
  bind (render (DateInput label min_value max_value)) (fun _ => ret chosen).
Definition metric (label : string) (value : Value) : Script unit :=
  render (Metric label value).
Definition plotly_chart (fig : Figure) : Script unit :=
  render (PlotlyChart fig).
Definition download_button (label : string) (data : D) (file_name : string)
  : Script unit :=
  render (DownloadButton label data file_name).
Definition error (body : string) : Script unit := render (Error body).
End Script.

End St.

Declare Scope st_scope.
Delimit Scope st_scope with st.
Notation "x <- c ;; k" := (St.bind c (fun x => k))
  (at level 61, c at next level, right associativity) : st_scope.
Notation "c ;; k" := (St.bind c (fun _ => k))
  (at level 61, right associativity) : st_scope.

(* ===================================================================== *)
(** ** loadapp.py *)
(* ===================================================================== *)

Module App.
Import Py Pd.

(** *** The table *)

(** One line of the spreadsheet as [pd.read_excel] delivers it. *)
Module Raw.
Record Load : Type := mkLoad {
  Driver : string;
  Delivery_Status : string;
  Truck : string;
  Pickup_State : string;
  PPickup_City : string;
  Pickup_Date : Timestamp;
  Amount : number;
  Driver_Pay : number;
  Lumper_Paid : number;
  Rate_Mile : number;
  Broker_Name : string
}.
End Raw.

(** One line of the table [load_data] returns. *)
Record Load : Type := mkLoad {
  Driver : string;
  Delivery_Status : string;
  Truck : string;
  Pickup_State : string;
  PPickup_City : string;
  Pickup_Date : date;
  Amount : number;
  Driver_Pay : number;
  Lumper_Paid : number;
  Rate_Mile : number;
  Broker_Name : string;
  Net_Profit : number
}.

(** The first sheet of a workbook: its header line and its data lines. *)
Record Sheet : Type := mkSheet {
  header : list string;
  body : list Raw.Load
}.

(** What is found at the path the script reads. *)
Inductive FileState : Type :=
| Missing
| Malformed (msg : string)
| Workbook (sheet : Sheet).

(** [pd.read_excel(path)]: the rows get the labels 0, 1, 2, ... *)
Definition read_excel (path : string) (fs : FileState)
  : result (DataFrame Raw.Load) :=
  match fs with
  | Missing => Raise (FileNotFoundError path)
  | Malformed msg => Raise (ValueError msg)
  | Workbook sheet =>
      OK {| columns := header sheet;
            rows := combine (seq 0 (List.length (body sheet))) (body sheet) |}
  end.

(** [df[name] = ...]: a new label goes last, a known one stays in place. *)
Definition setitem_label (labels : list string) (name : string) : list string :=
  if existsb (String.eqb name) labels then labels else labels ++ [name].

(** The rows after the two assignments of [load_data]. *)
Fixpoint assign (rs : list (nat * Raw.Load)) (pickup_date : Series date)
         (net_profit : Series number) : list (nat * Load) :=
  match rs, pickup_date, net_profit with
  | (i, r) :: rs', d :: pickup_date', n :: net_profit' =>
      (i, {| Driver := Raw.Driver r;
             Delivery_Status := Raw.Delivery_Status r;
             Truck := Raw.Truck r;
             Pickup_State := Raw.Pickup_State r;
             PPickup_City := Raw.PPickup_City r;
             Pickup_Date := d;
             Amount := Raw.Amount r;
             Driver_Pay := Raw.Driver_Pay r;
             Lumper_Paid := Raw.Lumper_Paid r;
             Rate_Mile := Raw.Rate_Mile r;
             Broker_Name := Raw.Broker_Name r;
             Net_Profit := n |})
      :: assign rs' pickup_date' net_profit'
  | _, _, _ => []
  end.

(** *** Lines 44-49: [load_data] *)

Definition load_data (fs : FileState) : result (DataFrame Load) :=
  (df <- read_excel "Load Data.xlsx" fs ;;
   pickup <- getitem df "Pickup Date" Raw.Pickup_Date ;;
   let pickup_date := dt_date (to_datetime pickup) in
   amount <- getitem df "Amount" Raw.Amount ;;
   driver_pay <- getitem df "Driver Pay" Raw.Driver_Pay ;;
   lumper_paid <- getitem df "Lumper Paid" Raw.Lumper_Paid ;;
   let net_profit := sub amount (add (fillna driver_pay 0) (fillna lumper_paid 0)) in
   OK {| columns := setitem_label (columns df) "Net Profit";
         rows := assign (rows df) pickup_date net_profit |})%py.

(** *** Lines 60-75: what the user has selected *)

Record Inputs : Type := mkInputs {
  sel_driver : list string;
  sel_status : list string;
  sel_truck : list string;
  sel_state : list string;
  sel_city : list string;
  sel_dates : St.DateValue
}.

(** [sorted(df[name].unique())] *)
Definition options (df : DataFrame Load) (name : string)
           (field : Load -> string) : result (list string) :=
  (s <- getitem df name field ;;
   OK (sorted String.leb (unique String.eqb s)))%py.

(** Line 69: the cities offered, given the states selected. *)
Definition opts (df : DataFrame Load) (sel_state : list string)
  : result (list string) :=
  (if truthy sel_state
   then state <- getitem df "Pickup State" Pickup_State ;;
        city <- getitem (loc df (isin state sel_state)) "PPickup City" PPickup_City ;;
        OK (sorted String.leb (unique String.eqb city))
   else city <- getitem df "PPickup City" PPickup_City ;;
        OK (sorted String.leb (unique String.eqb city)))%py.

(** *** Lines 80-90: the filter *)

(** [if sel: filtered_df = filtered_df[filtered_df[name].isin(sel)]] *)
Definition by_isin (name : string) (field : Load -> string)
           (sel : list string) (filtered_df : DataFrame Load)
  : result (DataFrame Load) :=
  (if truthy sel
   then s <- getitem filtered_df name field ;;
        OK (loc filtered_df (isin s sel))
   else OK filtered_df)%py.

(** Lines 88-90: the date range, when both ends are there. *)
Definition by_dates (sel_dates : St.DateValue) (filtered_df : DataFrame Load)
  : result (DataFrame Load) :=
  (match sel_dates with
   | St.DateTuple [start_date; end_date] =>
       lower <- getitem filtered_df "Pickup Date" Pickup_Date ;;
       upper <- getitem filtered_df "Pickup Date" Pickup_Date ;;
       OK (loc filtered_df (mask_and (ge lower start_date) (le upper end_date)))
   | _ => OK filtered_df
   end)%py.

Definition filtered_df (df : DataFrame Load) (inp : Inputs)
  : result (DataFrame Load) :=
  (let filtered_df := copy df in
   filtered_df <- by_isin "Driver" Driver (sel_driver inp) filtered_df ;;
   filtered_df <- by_isin "Delivery Status" Delivery_Status (sel_status inp) filtered_df ;;
   filtered_df <- by_isin "Truck#" Truck (sel_truck inp) filtered_df ;;
   filtered_df <- by_isin "Pickup State" Pickup_State (sel_state inp) filtered_df ;;
   filtered_df <- by_isin "PPickup City" PPickup_City (sel_city inp) filtered_df ;;
   by_dates (sel_dates inp) filtered_df)%py.

(** The six filter statements as values, to run them in another order. *)
Inductive Dimension : Type :=
| ByDriver | ByStatus | ByTruck | ByState | ByCity | ByDates.

Definition statement (inp : Inputs) (d : Dimension)
  : DataFrame Load -> result (DataFrame Load) :=
  match d with
  | ByDriver => by_isin "Driver" Driver (sel_driver inp)
  | ByStatus => by_isin "Delivery Status" Delivery_Status (sel_status inp)
  | ByTruck => by_isin "Truck#" Truck (sel_truck inp)
  | ByState => by_isin "Pickup State" Pickup_State (sel_state inp)
  | ByCity => by_isin "PPickup City" PPickup_City (sel_city inp)
  | ByDates => by_dates (sel_dates inp)
  end.

Definition source_order : list Dimension :=
  [ByDriver; ByStatus; ByTruck; ByState; ByCity; ByDates].

Definition filtered_in (order : list Dimension) (df : DataFrame Load)
           (inp : Inputs) : result (DataFrame Load) :=
  fold_left (fun acc d => Py.bind acc (statement inp d)) order (OK (copy df)).

(** *** Lines 93-99: the KPIs *)

Definition revenue (filtered_df : DataFrame Load) : result Q :=
  (amount <- getitem filtered_df "Amount" Amount ;; OK (sum amount))%py.

Definition profit (filtered_df : DataFrame Load) : result Q :=
  (net <- getitem filtered_df "Net Profit" Net_Profit ;; OK (sum net))%py.

Definition avg_rpm (filtered_df : DataFrame Load) : result number :=
  (if negb (empty filtered_df)
   then rpm <- getitem filtered_df "Rate/Mile" Rate_Mile ;; OK (mean rpm)
   else OK (Some 0%Q))%py.

Definition loads (filtered_df : DataFrame Load) : nat := len filtered_df.

(** *** Lines 104-126: the grouped aggregates *)

(** [df.groupby(key)[value]]: the key is looked up first; the value
    lookup has its own message. *)
Definition groupby_getitem {K} (df : DataFrame Load)
           (key : string) (key_field : Load -> K)
           (value : string) (value_field : Load -> number)
  : result (Series K * Series number) :=
  (keys <- getitem df key key_field ;;
   if has_column df value
   then OK (keys, map (fun ir => value_field (snd ir)) (rows df))
   else Raise (KeyError ("Column not found: " ++ value)))%py.

Definition d_sum (filtered_df : DataFrame Load) : result (list (string * Q)) :=
  (g <- groupby_getitem filtered_df "Driver" Driver "Amount" Amount ;;
   OK (groupby_sum String.eqb String.leb (fst g) (snd g)))%py.

Definition t_sum (filtered_df : DataFrame Load) : result (list (date * Q)) :=
  (g <- groupby_getitem filtered_df "Pickup Date" Pickup_Date "Amount" Amount ;;
   OK (groupby_sum Z.eqb Z.leb (fst g) (snd g)))%py.

Definition s_counts (filtered_df : DataFrame Load)
  : result (list (string * nat)) :=
  (state <- getitem filtered_df "Pickup State" Pickup_State ;;
   OK (value_counts String.eqb state))%py.

Definition b_sum (filtered_df : DataFrame Load) : result (list (string * Q)) :=
  (g <- groupby_getitem filtered_df "Broker Name" Broker_Name "Net Profit" Net_Profit ;;
   OK (groupby_sum String.eqb String.leb (fst g) (snd g)))%py.

(** Everything the page derives from the filtered view, in script order. *)
Record Aggregates : Type := mkAggregates {
  Revenue : Q;
  Profit : Q;
  Avg_RPM : number;
  Load_Count : nat;
  Revenue_by_Driver : list (string * Q);
  Revenue_by_Date : list (date * Q);
  Count_by_State : list (string * nat);
  Profit_by_Broker : list (string * Q)
}.

Definition summarize (filtered_df : DataFrame Load) : result Aggregates :=
  (r <- revenue filtered_df ;;
   p <- profit filtered_df ;;
   val <- avg_rpm filtered_df ;;
   d <- d_sum filtered_df ;;
   t <- t_sum filtered_df ;;
   s <- s_counts filtered_df ;;
   b <- b_sum filtered_df ;;
   OK {| Revenue := r; Profit := p; Avg_RPM := val;
         Load_Count := loads filtered_df;
         Revenue_by_Driver := d; Revenue_by_Date := t;
         Count_by_State := s; Profit_by_Broker := b |})%py.

(** *** Lines 51-141: the page *)

(** Lines 132-138: the download button serves [to_excel(filtered_df)].  The
    element records the frame that is serialised; the workbook written for
    it is [Xlsx.to_excel], below.  The emoji of the labels are left out. *)

Definition Page : Type := list (St.Element (DataFrame Load)).

Definition dashboard (df : DataFrame Load) (inp : Inputs)
  : St.Script (DataFrame Load) unit :=
  (St.markdown St.page_title ;;
   St.markdown St.filter_box_open ;;
   o <- St.lift (options df "Driver" Driver) ;;
   sel_driver <- St.multiselect "Driver" o (sel_driver inp) ;;
   o <- St.lift (options df "Delivery Status" Delivery_Status) ;;
   sel_status <- St.multiselect "Status" o (sel_status inp) ;;
   o <- St.lift (options df "Truck#" Truck) ;;
   sel_truck <- St.multiselect "Truck#" o (sel_truck inp) ;;
   o <- St.lift (options df "Pickup State" Pickup_State) ;;
   sel_state <- St.multiselect "State" o (sel_state inp) ;;
   o <- St.lift (opts df sel_state) ;;
   sel_city <- St.multiselect "City" o (sel_city inp) ;;
   pickup <- St.lift (getitem df "Pickup Date" Pickup_Date) ;;
   let min_date := Pd.min pickup in
   pickup <- St.lift (getitem df "Pickup Date" Pickup_Date) ;;
   let max_date := Pd.max pickup in
   sel_dates <- St.date_input "Date Range" min_date max_date (sel_dates inp) ;;
   St.markdown St.filter_box_close ;;
   filtered_df <- St.lift
     (filtered_df df {| sel_driver := sel_driver; sel_status := sel_status;
                        sel_truck := sel_truck; sel_state := sel_state;
                        sel_city := sel_city; sel_dates := sel_dates |}) ;;
   r <- St.lift (revenue filtered_df) ;;
   St.metric "Revenue" (St.Money r) ;;
   p <- St.lift (profit filtered_df) ;;
   St.metric "Profit" (St.Money p) ;;
   val <- St.lift (avg_rpm filtered_df) ;;
   St.metric "Avg RPM" (St.Rate val) ;;
   St.metric "Loads" (St.Count (loads filtered_df)) ;;
   d <- St.lift (d_sum filtered_df) ;;
   St.plotly_chart (St.Bar "Revenue by Driver" d) ;;
   t <- St.lift (t_sum filtered_df) ;;
   St.plotly_chart (St.Line "Revenue Trend" t) ;;
   s <- St.lift (s_counts filtered_df) ;;
   St.plotly_chart (St.BarCount "Loads by State" s) ;;
   b <- St.lift (b_sum filtered_df) ;;
   St.plotly_chart (St.Pie "Broker Profit Share" b) ;;
   St.download_button "Download Report" filtered_df "Trucking_Report.xlsx")%st.

(** Lines 52-138: the body of the [try]. *)
Definition try_block (fs : FileState) (inp : Inputs)
  : St.Script (DataFrame Load) unit :=
  (df <- St.lift (load_data fs) ;; dashboard df inp)%st.

Definition script (fs : FileState) (inp : Inputs)
  : St.Script (DataFrame Load) unit :=
  (St.set_page_config "Trucking Analytics" "wide" ;;
   St.markdown St.page_style ;;
   St.try_except
     (try_block fs inp)
     (fun e => St.error ("Error: " ++ str e)))%st.

(** The page after one run of the script, and how the run ended. *)
Definition run (fs : FileState) (inp : Inputs) : Page * result unit :=
  script fs inp [].

End App.

(* ===================================================================== *)
(** ** The exported workbook *)
(* ===================================================================== *)

Module Xlsx.
Import Py Pd App.

(** A cell of a worksheet: empty, a number, a text or a calendar day. *)
Inductive Cell : Type :=
| Blank
| Number (q : Q)
| Text (s : string)
| Day (d : date).



(** The cell of a numeric attribute: NaN is written as an empty cell. *)
Definition number_cell (x : number) : Cell :=
  match x with
  | Some q => Number q
  | None => Blank
  end.

(** The cell a row holds under a column label.  Rows carry the attributes
    of the data model only; another label has no cell here. *)
Definition value (r : Load) (label : string) : Cell :=
  if String.eqb label "Driver" then Text (Driver r)
  else if String.eqb label "Delivery Status" then Text (Delivery_Status r)
  else if String.eqb label "Truck#" then Text (Truck r)
  else if String.eqb label "Pickup State" then Text (Pickup_State r)
  else if String.eqb label "PPickup City" then Text (PPickup_City r)
  else if String.eqb label "Pickup Date" then Day (Pickup_Date r)
  else if String.eqb label "Amount" then number_cell (Amount r)
  else if String.eqb label "Driver Pay" then number_cell (Driver_Pay r)
  else if String.eqb label "Lumper Paid" then number_cell (Lumper_Paid r)
  else if String.eqb label "Rate/Mile" then number_cell (Rate_Mile r)
  else if String.eqb label "Broker Name" then Text (Broker_Name r)
  else if String.eqb label "Net Profit" then number_cell (Net_Profit r)
  else Blank.









End Xlsx.

(* ===================================================================== *)
(** ** Line 48 on the columns as numpy holds them *)
(* ===================================================================== *)

(** [Pd] carries numeric cells as exact rationals, which is all that
    filtering, grouping and the page need.  The one arithmetic statement of
    the program, line 48, is embedded here on the arrays pandas really
    holds: a numeric column is an int64 array (integers, no missing value,
    wrap-around arithmetic) or a float64 array (IEEE 754 binary64, NaN for a
    missing value, every operation rounded to nearest-even). *)

Module Np.

(** binary64, as [SpecFloat] specifies it. *)
Definition prec : Z := 53.
Definition emax : Z := 1024.
Definition fadd : spec_float -> spec_float -> spec_float := SFadd prec emax.
Definition fsub : spec_float -> spec_float -> spec_float := SFsub prec emax.

Definition isnan (x : spec_float) : bool :=
  match x with
  | S754_nan => true
  | _ => false
  end.


(** int64: the result of an operation is reduced to [-2^63, 2^63). *)
Definition wrap (z : Z) : Z := ((z + 2 ^ 63) mod 2 ^ 64 - 2 ^ 63)%Z.

(** The cast of an integer to float64 rounds to nearest, ties to even. *)
Definition cast (z : Z) : spec_float := binary_normalize prec emax z 0 false.

(** A numeric column. *)
Inductive ndarray : Type :=
| int64 (values : list Z)
| float64 (values : list spec_float).

Definition size (a : ndarray) : nat :=
  match a with
  | int64 v => List.length v
  | float64 v => List.length v
  end.

Definition astype_float64 (a : ndarray) : list spec_float :=
  match a with
  | int64 v => map cast v
  | float64 v => v
  end.


(** [s.fillna(value)]: an int64 column has nothing to fill. *)
Definition fillna (a : ndarray) (value : Z) : ndarray :=
  match a with
  | int64 v => int64 v
  | float64 v => float64 (map (fun x => if isnan x then cast value else x) v)
  end.

(** [a + b] and [a - b]: in int64 when both are, otherwise in float64 after
    the cast of the integer operand. *)
Definition add (a b : ndarray) : ndarray :=
  match a, b with
  | int64 x, int64 y => int64 (Pd.map2 (fun p q => wrap (p + q)) x y)
  | _, _ => float64 (Pd.map2 fadd (astype_float64 a) (astype_float64 b))
  end.

Definition sub (a b : ndarray) : ndarray :=
  match a, b with
  | int64 x, int64 y => int64 (Pd.map2 (fun p q => wrap (p - q)) x y)
  | _, _ => float64 (Pd.map2 fsub (astype_float64 a) (astype_float64 b))
  end.

(** Line 48: the Net Profit column from the three columns it reads. *)
Definition net_profit (amount driver_pay lumper_paid : ndarray) : ndarray :=
  sub amount (add (fillna driver_pay 0) (fillna lumper_paid 0)).

(** *** The same, one row at a time *)

(** A value of a column. *)
Inductive scalar : Type :=
| Int (z : Z)
| Float (x : spec_float).


Definition to_float (s : scalar) : spec_float :=
  match s with
  | Int z => cast z
  | Float x => x
  end.

Definition missing (s : scalar) : bool :=
  match s with
  | Int _ => false
  | Float x => isnan x
  end.






(** The exact value of a float that is a number. *)
Definition exact (x : spec_float) : Q :=
  match x with
  | S754_finite s m e =>
      let q := (inject_Z (Zpos m)
                * (if (0 <=? e)%Z then inject_Z (2 ^ e) else / inject_Z (2 ^ (- e))))%Q in
      if s then (- q)%Q else q
  | _ => 0%Q
  end.


(** The doubles nearest to 0.3, 0.1 and 0.2. *)
Definition d0_3 : spec_float := S754_finite false 5404319552844595 (-54).
Definition d0_1 : spec_float := S754_finite false 7205759403792794 (-56).
Definition d0_2 : spec_float := S754_finite false 7205759403792794 (-55).

End Np.

(* ===================================================================== *)
(** ** Vocabulary of the specification *)
(* ===================================================================== *)

Module Spec.
Import Py Pd App.

(** The columns the input file is expected to have, and the columns of a
    loaded table. *)
Definition expected_columns : list string :=
  ["Driver"; "Delivery Status"; "Truck#"; "Pickup State"; "PPickup City";
   "Pickup Date"; "Amount"; "Driver Pay"; "Lumper Paid"; "Rate/Mile";
   "Broker Name"]%string.

Definition table_columns : list string :=
  (expected_columns ++ ["Net Profit"%string])%list.

Definition has_columns {R} (df : DataFrame R) (names : list string) : bool :=
  forallb (has_column df) names.

(** A LoadTable: a frame that has every column of the data model. *)
Definition is_table (df : DataFrame Load) : Prop :=
  has_columns df table_columns = true.

(** The rows of [df] that satisfy [p], labels, columns and order kept. *)
Definition where_ (p : Load -> bool) (df : DataFrame Load) : DataFrame Load :=
  {| columns := columns df;
     rows := filter (fun ir => p (snd ir)) (rows df) |}.

(** [subseq v t]: [v] is [t] with some positions left out. *)
Inductive subseq {A : Type} : list A -> list A -> Prop :=
| subseq_nil : subseq [] []
| subseq_keep x v t : subseq v t -> subseq (x :: v) (x :: t)
| subseq_drop x v t : subseq v t -> subseq v (x :: t).

(** [narrows t v]: [v] has the columns of [t] and some of its rows, as they
    are and in the same order. *)
Definition narrows (t v : DataFrame Load) : Prop :=
  columns v = columns t /\ subseq (rows v) (rows t).

(** A missing amount counts as 0. *)
Definition or0 (x : number) : Q :=
  match x with
  | Some q => q
  | None => 0%Q
  end.

(** The line of the loaded table that comes from a line of the sheet. *)
Definition derive (raw : Raw.Load) : Load :=
  {| Driver := Raw.Driver raw;
     Delivery_Status := Raw.Delivery_Status raw;
     Truck := Raw.Truck raw;
     Pickup_State := Raw.Pickup_State raw;
     PPickup_City := Raw.PPickup_City raw;
     Pickup_Date := (Raw.Pickup_Date raw / ns_per_day)%Z;
     Amount := Raw.Amount raw;
     Driver_Pay := Raw.Driver_Pay raw;
     Lumper_Paid := Raw.Lumper_Paid raw;
     Rate_Mile := Raw.Rate_Mile raw;
     Broker_Name := Raw.Broker_Name raw;
     Net_Profit :=
       cell_sub (Raw.Amount raw)
                (cell_add (Some (or0 (Raw.Driver_Pay raw)))
                          (Some (or0 (Raw.Lumper_Paid raw)))) |}.

(** The table that is the sheet with [derive] applied to each line. *)
Definition loaded (sheet : Sheet) : DataFrame Load :=
  {| columns := setitem_label (header sheet) "Net Profit";
     rows := combine (seq 0 (List.length (body sheet)))
                     (map derive (body sheet)) |}.

(** A categorical selection lets a value through when it is empty or
    holds the value. *)
Definition selected (sel : list string) (v : string) : bool :=
  negb (truthy sel) || existsb (String.eqb v) sel.

Definition in_range (start_date end_date : date) (r : Load) : bool :=
  ((start_date <=? Pickup_Date r) && (Pickup_Date r <=? end_date))%Z.

(** A date selection restricts only when it is a pair. *)
Definition complete (v : St.DateValue) : bool :=
  match v with
  | St.DateTuple [_; _] => true
  | _ => false
  end.

(** The restriction one dimension of the criteria puts on a row. *)
Definition keeps (inp : Inputs) (d : Dimension) (r : Load) : bool :=
  match d with
  | ByDriver => selected (sel_driver inp) (Driver r)
  | ByStatus => selected (sel_status inp) (Delivery_Status r)
  | ByTruck => selected (sel_truck inp) (Truck r)
  | ByState => selected (sel_state inp) (Pickup_State r)
  | ByCity => selected (sel_city inp) (PPickup_City r)
  | ByDates =>
      match sel_dates inp with
      | St.DateTuple [start_date; end_date] => in_range start_date end_date r
      | _ => true
      end
  end.

(** The five categorical criteria together: each selection is empty or
    holds the row's value. *)
Definition categorical (inp : Inputs) (r : Load) : bool :=
  selected (sel_driver inp) (Driver r)
  && selected (sel_status inp) (Delivery_Status r)
  && selected (sel_truck inp) (Truck r)
  && selected (sel_state inp) (Pickup_State r)
  && selected (sel_city inp) (PPickup_City r).

(** All the dimensions of [order] at once. *)
Definition keeps_all (inp : Inputs) (order : list Dimension) (r : Load) : bool :=
  forallb (fun d => keeps inp d r) order.

(** The criteria with another date selection. *)
Definition with_dates (inp : Inputs) (v : St.DateValue) : Inputs :=
  {| sel_driver := sel_driver inp; sel_status := sel_status inp;
     sel_truck := sel_truck inp; sel_state := sel_state inp;
     sel_city := sel_city inp; sel_dates := v |}.

(** Criteria that select nothing in any categorical dimension. *)
Definition no_selection (v : St.DateValue) : Inputs :=
  {| sel_driver := []; sel_status := []; sel_truck := []; sel_state := [];
     sel_city := []; sel_dates := v |}.

(** [table] has one line per value of [field] present in [v], and no
    other line. *)
Definition groups_of {K V} (field : Load -> K) (v : DataFrame Load)
           (table : list (K * V)) : Prop :=
  NoDup (map fst table) /\
  forall k, In k (map fst table) <->
            exists ir, In ir (rows v) /\ field (snd ir) = k.

(** What [summarize] answers on a view without rows. *)
Definition zero_aggregates : Aggregates :=
  {| Revenue := 0; Profit := 0; Avg_RPM := Some 0%Q; Load_Count := 0;
     Revenue_by_Driver := []; Revenue_by_Date := []; Count_by_State := [];
     Profit_by_Broker := [] |}.

(** What is on the page when the [try] starts. *)
Definition preamble : Page :=
  [St.PageConfig "Trucking Analytics" "wide"; St.Markdown St.page_style].

(** The page when [load_data] raises [e]: what was rendered before the
    [try], and the message. *)
Definition load_failure_page (e : Exception) : Page :=
  [St.PageConfig "Trucking Analytics" "wide"; St.Markdown St.page_style;
   St.Error ("Error: " ++ str e)].

(** The file is a workbook whose header has no column [name]. *)
Definition lacks (fs : FileState) (name : string) : Prop :=
  exists sheet, fs = Workbook sheet /\
                existsb (String.eqb name) (header sheet) = false.

(** The columns [load_data] itself reads. *)
Definition read_at_load : list string :=
  ["Pickup Date"; "Amount"; "Driver Pay"; "Lumper Paid"]%string.

End Spec.

(* ===================================================================== *)
(** ** The scenario tables of the specification *)
(* ===================================================================== *)

Module Scenario.
Import Py Pd App Spec.
Local Open Scope string_scope.

(** A sheet line with the five attributes a scenario fixes; the other
    attributes are those of [rest]. *)
Definition line (driver state : string) (amount driver_pay lumper : Q)
           (rest : Raw.Load) : Raw.Load :=
  {| Raw.Driver := driver;
     Raw.Delivery_Status := Raw.Delivery_Status rest;
     Raw.Truck := Raw.Truck rest;
     Raw.Pickup_State := state;
     Raw.PPickup_City := Raw.PPickup_City rest;
     Raw.Pickup_Date := Raw.Pickup_Date rest;
     Raw.Amount := Some amount;
     Raw.Driver_Pay := Some driver_pay;
     Raw.Lumper_Paid := Some lumper;
     Raw.Rate_Mile := Raw.Rate_Mile rest;
     Raw.Broker_Name := Raw.Broker_Name rest |}.

(** The three-line file of the scenarios. *)
Definition three_loads (r1 r2 r3 : Raw.Load) : FileState :=
  Workbook {| header := expected_columns;
              body := [line "A" "TX" 100 20 0 r1;
                       line "B" "CA" 200 50 10 r2;
                       line "A" "TX" 150 0 0 r3] |}.

(** Its loaded table, and the view of driver A. *)
Definition three_loads_table (r1 r2 r3 : Raw.Load) : DataFrame Load :=
  {| columns := table_columns;
     rows := [(0%nat, derive (line "A" "TX" 100 20 0 r1));
              (1%nat, derive (line "B" "CA" 200 50 10 r2));
              (2%nat, derive (line "A" "TX" 150 0 0 r3))] |}.

Definition driver_A_view (r1 r2 r3 : Raw.Load) : DataFrame Load :=
  {| columns := table_columns;
     rows := [(0%nat, derive (line "A" "TX" 100 20 0 r1));
              (2%nat, derive (line "A" "TX" 150 0 0 r3))] |}.

(** The criteria [{Driver: ["A"]}]. *)
Definition driver_A : Inputs :=
  {| sel_driver := ["A"]; sel_status := []; sel_truck := [];
     sel_state := []; sel_city := []; sel_dates := St.DateTuple [] |}.

(** Concrete lines and files used to exercise the theorems. *)
Definition houston : Raw.Load :=
  {| Raw.Driver := "A"; Raw.Delivery_Status := "Delivered";
     Raw.Truck := "T1"; Raw.Pickup_State := "TX";
     Raw.PPickup_City := "Houston";
     Raw.Pickup_Date := 1704103200000000000%Z;
     Raw.Amount := Some 100%Q; Raw.Driver_Pay := None;
     Raw.Lumper_Paid := Some 10%Q; Raw.Rate_Mile := Some (5 # 2)%Q;
     Raw.Broker_Name := "Acme" |}.

Definition fresno : Raw.Load :=
  {| Raw.Driver := "B"; Raw.Delivery_Status := "Pending";
     Raw.Truck := "T2"; Raw.Pickup_State := "CA";
     Raw.PPickup_City := "Fresno";
     Raw.Pickup_Date := 1704300000000000000%Z;
     Raw.Amount := Some 200%Q; Raw.Driver_Pay := Some 50%Q;
     Raw.Lumper_Paid := None; Raw.Rate_Mile := None;
     Raw.Broker_Name := "Bolt" |}.

Definition two_loads : FileState :=
  Workbook {| header := expected_columns; body := [houston; fresno] |}.

(** The loaded table of [two_loads]. *)
Definition two_loads_table : DataFrame Load :=
  {| columns := table_columns;
     rows := [(0%nat, derive houston); (1%nat, derive fresno)] |}.

(** A file with every expected column but the broker's. *)
Definition no_broker : FileState :=
  Workbook {| header := ["Driver"; "Delivery Status"; "Truck#";
                         "Pickup State"; "PPickup City"; "Pickup Date";
                         "Amount"; "Driver Pay"; "Lumper Paid"; "Rate/Mile"];
              body := [houston; fresno] |}.

(** A file without the amount column. *)
Definition no_amount : FileState :=
  Workbook {| header := ["Driver"; "Delivery Status"; "Truck#";
                         "Pickup State"; "PPickup City"; "Pickup Date";
                         "Driver Pay"; "Lumper Paid"; "Rate/Mile";
                         "Broker Name"];
              body := [houston; fresno] |}.

End Scenario.

(* ===================================================================== *)
(** ** Derived notions *)
(* ===================================================================== *)

Module Derived.
Import Py Pd App Spec.

(** The timestamp [ts] falls on the calendar day [d]. *)
Definition on_day (ts : Timestamp) (d : date) : Prop :=
  (d * ns_per_day <= ts < (d + 1) * ns_per_day)%Z.

(** A categorical selection admits a value: nothing is selected, or the
    value is. *)
Definition admits (sel : list string) (v : string) : Prop :=
  sel = [] \/ In v sel.

(** A date selection admits a day: it is not a pair, or the day lies
    between its two ends. *)
Definition in_dates (v : St.DateValue) (d : date) : Prop :=
  match v with
  | St.DateTuple [start_date; end_date] => (start_date <= d <= end_date)%Z
  | _ => True
  end.

(** The row passes every criterion. *)
Definition satisfies (inp : Inputs) (r : Load) : Prop :=
  admits (sel_driver inp) (Driver r) /\
  admits (sel_status inp) (Delivery_Status r) /\
  admits (sel_truck inp) (Truck r) /\
  admits (sel_state inp) (Pickup_State r) /\
  admits (sel_city inp) (PPickup_City r) /\
  in_dates (sel_dates inp) (Pickup_Date r).

(** The second selection is at least as wide as the first. *)
Definition wider_sel (sel1 sel2 : list string) : Prop :=
  sel2 = [] \/ (sel1 <> [] /\ incl sel1 sel2).

Definition wider_dates (v1 v2 : St.DateValue) : Prop :=
  complete v2 = false \/
  exists s1 e1 s2 e2,
    v1 = St.DateTuple [s1; e1] /\ v2 = St.DateTuple [s2; e2] /\
    (s2 <= s1)%Z /\ (e1 <= e2)%Z.

Definition wider (inp1 inp2 : Inputs) : Prop :=
  wider_sel (sel_driver inp1) (sel_driver inp2) /\
  wider_sel (sel_status inp1) (sel_status inp2) /\
  wider_sel (sel_truck inp1) (sel_truck inp2) /\
  wider_sel (sel_state inp1) (sel_state inp2) /\
  wider_sel (sel_city inp1) (sel_city inp2) /\
  wider_dates (sel_dates inp1) (sel_dates inp2).

(** The order a boolean comparison decides. *)
Definition ordered {A} (leb : A -> A -> bool) : A -> A -> Prop :=
  fun x y => leb x y = true.

(** The number of rows of the view whose Pickup State is [k]. *)
Definition loads_in_state (v : DataFrame Load) (k : string) : nat :=
  List.length (filter (fun ir => String.eqb k (Pickup_State (snd ir))) (rows v)).

(** The elements of the page. *)
Definition is_error (e : St.Element (DataFrame Load)) : bool :=
  match e with
  | St.Error _ => true
  | _ => false
  end.

Definition no_error (page : Page) : Prop :=
  forallb (fun e => negb (is_error e)) page = true.

(** A script that only adds to the page, and adds no error message. *)
Definition appends {A} (c : St.Script (DataFrame Load) A) : Prop :=
  forall page, exists more,
    fst (c page) = page ++ more /\ no_error more.

(** Lines 8-42, 51 and 140-141: the page configuration, the style sheet
    and the [try ... except] put around a body. *)
Definition script_around (body : St.Script (DataFrame Load) unit)
  : St.Script (DataFrame Load) unit :=
  (St.set_page_config "Trucking Analytics" "wide" ;;
   St.markdown St.page_style ;;
   St.try_except body (fun e => St.error ("Error: " ++ str e)))%st.

(** The criteria that select, in every categorical dimension, all the
    values on offer. *)
Definition select_all (drivers statuses trucks states cities : list string)
           (v : St.DateValue) : Inputs :=
  {| sel_driver := drivers; sel_status := statuses; sel_truck := trucks;
     sel_state := states; sel_city := cities; sel_dates := v |}.

End Derived.

(* ===================================================================== *)
(** ** Facts about the pandas operations *)
(* ===================================================================== *)

Module PdFacts.
Import Py Pd Spec.

Lemma select_map A (p : A -> bool) (l : list A) :
  select l (map p l) = filter p l.
Proof.
  induction l as [|x l IH]; simpl; [reflexivity|].
  rewrite IH. reflexivity.
Qed.

Lemma map2_map A B C D (f : B -> C -> D) (g : A -> B) (h : A -> C) l :
  map2 f (map g l) (map h l) = map (fun x => f (g x) (h x)) l.
Proof.
  induction l as [|x l IH]; simpl; [reflexivity|].
  rewrite IH. reflexivity.
Qed.

Create HintDb frames.
#[local] Hint Constructors subseq : frames.

Lemma subseq_nil_l A (l : list A) : subseq [] l.
Proof. induction l; auto with frames. Qed.

Lemma select_subseq A (l : list A) mask : subseq (select l mask) l.
Proof.
  revert mask. induction l as [|x l IH]; intros [|b mask]; simpl;
    try apply subseq_nil_l.
  destruct b; constructor; apply IH.
Qed.

Lemma subseq_refl A (l : list A) : subseq l l.
Proof. induction l; auto with frames. Qed.

Lemma subseq_trans A (a b c : list A) :
  subseq a b -> subseq b c -> subseq a c.
Proof.
  intros Hab Hbc. revert a Hab.
  induction Hbc as [|x v t Hvt IH|x v t Hvt IH]; intros a Hab.
  - assumption.
  - inversion Hab; subst.
    + constructor. apply IH. assumption.
    + apply subseq_drop. apply IH. assumption.
  - apply subseq_drop. apply IH. assumption.
Qed.

Lemma subseq_In A (v t : list A) x : subseq v t -> In x v -> In x t.
Proof.
  induction 1 as [|y v t H IH|y v t H IH]; simpl; intuition.
Qed.

Lemma subseq_map A B (f : A -> B) v t :
  subseq v t -> subseq (map f v) (map f t).
Proof. induction 1; simpl; auto with frames. Qed.

Lemma subseq_NoDup A (v t : list A) : subseq v t -> NoDup t -> NoDup v.
Proof.
  induction 1 as [|y v t H IH|y v t H IH]; intros Hnd.
  - assumption.
  - inversion Hnd; subst. constructor.
    + intro Hin. eapply subseq_In in Hin; eauto.
    + auto.
  - inversion Hnd; subst. auto.
Qed.

Lemma subseq_filter A (p : A -> bool) l : subseq (filter p l) l.
Proof. rewrite <- select_map. apply select_subseq. Qed.

Lemma subseq_length A (v t : list A) :
  subseq v t -> (List.length v <= List.length t)%nat.
Proof. induction 1; simpl; lia. Qed.

(** *** [sorted] and [unique] *)

Section Order.
Variable A : Type.
Variable leb : A -> A -> bool.

Lemma insert_perm x l : Permutation (insert leb x l) (x :: l).
Proof.
  induction l as [|y l IH]; simpl; [reflexivity|].
  destruct (leb x y); [reflexivity|].
  rewrite IH. apply perm_swap.
Qed.

Lemma sorted_perm l : Permutation (sorted leb l) l.
Proof.
  induction l as [|x l IH]; simpl; [reflexivity|].
  rewrite insert_perm. constructor. assumption.
Qed.

Lemma sorted_In l x : In x (sorted leb l) <-> In x l.
Proof.
  split; apply Permutation_in;
    [apply sorted_perm | symmetry; apply sorted_perm].
Qed.

Lemma sorted_NoDup l : NoDup l -> NoDup (sorted leb l).
Proof.
  intro H. eapply Permutation_NoDup; [symmetry; apply sorted_perm|exact H].
Qed.
End Order.

Section Unique.
Variable K : Type.
Variable eqb : K -> K -> bool.
Hypothesis eqb_spec : forall x y, eqb x y = true <-> x = y.

Lemma existsb_eqb x l : existsb (eqb x) l = true <-> In x l.
Proof.
  rewrite existsb_exists. split.
  - intros (y & Hin & E). apply eqb_spec in E. subst. assumption.
  - intro Hin. exists x. split; [assumption|]. apply eqb_spec. reflexivity.
Qed.

Lemma unique_from_In seen s x :
  In x (unique_from eqb seen s) <-> In x s /\ ~ In x seen.
Proof.
  revert seen. induction s as [|y s IH]; intro seen; simpl.
  - tauto.
  - destruct (existsb (eqb y) seen) eqn:E.
    + apply existsb_eqb in E. rewrite IH. split.
      * tauto.
      * intros [[->|Hin] Hn]; tauto.
    + assert (Hy : ~ In y seen).
      { intro Hin. apply existsb_eqb in Hin. congruence. }
      simpl. rewrite IH. simpl. split.
      * intros [->|[Hin Hn]]; [tauto|]. split; [tauto|]. tauto.
      * intros [[->|Hin] Hn]; [tauto|].
        destruct (eqb y x) eqn:Eyx.
        -- apply eqb_spec in Eyx. tauto.
        -- right. split; [assumption|]. intros [->|H]; [|tauto].
           assert (eqb x x = true) by (apply eqb_spec; reflexivity).
           congruence.
Qed.

Lemma unique_In s x : In x (unique eqb s) <-> In x s.
Proof. unfold unique. rewrite unique_from_In. simpl. tauto. Qed.

Lemma unique_from_NoDup seen s : NoDup (unique_from eqb seen s).
Proof.
  revert seen. induction s as [|y s IH]; intro seen; simpl.
  - constructor.
  - destruct (existsb (eqb y) seen) eqn:E; [apply IH|].
    constructor; [|apply IH].
    rewrite unique_from_In. simpl. tauto.
Qed.

Lemma unique_NoDup s : NoDup (unique eqb s).
Proof. apply unique_from_NoDup. Qed.
End Unique.

Lemma string_eqb_spec x y : String.eqb x y = true <-> x = y.
Proof. apply String.eqb_eq. Qed.

Lemma Z_eqb_spec x y : Z.eqb x y = true <-> x = y.
Proof. apply Z.eqb_eq. Qed.

End PdFacts.

(* ===================================================================== *)
(** ** Facts about loadapp.py *)
(* ===================================================================== *)

Module AppFacts.
Import Py Pd App Spec PdFacts.

(** *** Columns *)

Lemma getitem_ok R A (df : DataFrame R) name (field : R -> A) :
  has_column df name = true ->
  getitem df name field = OK (map (fun ir => field (snd ir)) (rows df)).
Proof. unfold getitem. intros ->. reflexivity. Qed.

Lemma getitem_missing R A (df : DataFrame R) name (field : R -> A) :
  has_column df name = false ->
  getitem df name field = Raise (KeyError name).
Proof. unfold getitem. intros ->. reflexivity. Qed.

Lemma is_table_column df name :
  is_table df -> In name table_columns -> has_column df name = true.
Proof.
  unfold is_table, has_columns. intros H Hin.
  rewrite forallb_forall in H. apply H. assumption.
Qed.

Ltac column :=
  match goal with
  | H : is_table ?df |- has_column ?df _ = true =>
      apply (is_table_column H); simpl; tauto
  end.

(** *** The filter statements as restrictions *)

Lemma where_true df : where_ (fun _ => true) df = df.
Proof.
  destruct df as [cols rs]. unfold where_. simpl. f_equal.
  induction rs as [|x rs IH]; simpl; [reflexivity|]. rewrite IH. reflexivity.
Qed.

Lemma where_ext p q df :
  (forall r, p r = q r) -> where_ p df = where_ q df.
Proof.
  intro H. unfold where_. f_equal. apply filter_ext. intro ir. apply H.
Qed.

Lemma where_where p q df :
  where_ q (where_ p df) = where_ (fun r => p r && q r) df.
Proof.
  unfold where_. simpl. f_equal.
  induction (rows df) as [|x rs IH]; simpl; [reflexivity|].
  destruct (p (snd x)); simpl; [|assumption].
  destruct (q (snd x)); simpl; rewrite IH; reflexivity.
Qed.

Lemma is_table_where p df : is_table df -> is_table (where_ p df).
Proof. intro H. exact H. Qed.

Lemma loc_isin df (field : Load -> string) sel :
  loc df (isin (map (fun ir => field (snd ir)) (rows df)) sel)
  = where_ (fun r => existsb (String.eqb (field r)) sel) df.
Proof.
  unfold loc, where_, isin. f_equal.
  rewrite map_map. apply select_map.
Qed.

Lemma by_isin_where name field sel df :
  has_column df name = true ->
  by_isin name field sel df = OK (where_ (fun r => selected sel (field r)) df).
Proof.
  intro Hc. unfold by_isin, selected. destruct sel as [|v sel]; simpl truthy; cbv iota.
  - simpl. rewrite where_true. reflexivity.
  - rewrite (getitem_ok _ Hc). cbn [Py.bind]. rewrite loc_isin. reflexivity.
Qed.

Lemma loc_range df start_date end_date :
  loc df (mask_and (ge (map (fun ir => Pickup_Date (snd ir)) (rows df)) start_date)
                   (le (map (fun ir => Pickup_Date (snd ir)) (rows df)) end_date))
  = where_ (in_range start_date end_date) df.
Proof.
  unfold loc, where_, mask_and, ge, le, in_range. f_equal.
  rewrite !map_map, map2_map. apply select_map.
Qed.

Lemma by_dates_pair df start_date end_date :
  has_column df "Pickup Date" = true ->
  by_dates (St.DateTuple [start_date; end_date]) df
  = OK (where_ (in_range start_date end_date) df).
Proof.
  intro Hc. unfold by_dates. rewrite (getitem_ok _ Hc). cbn [Py.bind].
  rewrite loc_range. reflexivity.
Qed.

Lemma by_dates_incomplete df v :
  complete v = false -> by_dates v df = OK df.
Proof.
  destruct v as [d|[|s [|e [|x ds]]]]; simpl; intro H;
    try reflexivity; discriminate.
Qed.

Lemma statement_where inp d df :
  is_table df -> statement inp d df = OK (where_ (keeps inp d) df).
Proof.
  intro Ht. destruct d; unfold statement, keeps;
    try (apply by_isin_where; column).
  destruct (sel_dates inp) as [x|[|s [|e [|x ds]]]];
    try (rewrite by_dates_incomplete by reflexivity;
         rewrite where_true; reflexivity).
  apply by_dates_pair. column.
Qed.

Lemma fold_statements inp order : forall p df,
  is_table df ->
  fold_left (fun acc d => Py.bind acc (statement inp d)) order
            (OK (where_ p df))
  = OK (where_ (fun r => p r && keeps_all inp order r) df).
Proof.
  induction order as [|d order IH]; intros p df Ht; simpl.
  - f_equal. apply where_ext. intro r. rewrite andb_true_r. reflexivity.
  - rewrite (statement_where inp d (is_table_where p Ht)).
    rewrite where_where. rewrite IH by assumption.
    f_equal. apply where_ext. intro r. rewrite andb_assoc. reflexivity.
Qed.

Lemma filtered_in_where order df inp :
  is_table df ->
  filtered_in order df inp = OK (where_ (keeps_all inp order) df).
Proof.
  intro Ht. unfold filtered_in, copy.
  rewrite <- (where_true df) at 1.
  rewrite fold_statements by assumption.
  f_equal.
Qed.

Lemma filtered_df_in_source_order df inp :
  filtered_df df inp = filtered_in source_order df inp.
Proof.
  unfold filtered_df, filtered_in, source_order. simpl.
  repeat match goal with
         | |- context [by_isin ?n ?f ?s ?d] =>
             destruct (by_isin n f s d); simpl; try reflexivity
         end.
Qed.

Lemma filtered_df_where df inp :
  is_table df ->
  filtered_df df inp = OK (where_ (keeps_all inp source_order) df).
Proof.
  intro Ht. rewrite filtered_df_in_source_order.
  apply filtered_in_where. assumption.
Qed.

(** *** [load_data] row by row *)

Lemma assign_derive rs :
  assign rs
    (dt_date (to_datetime (map (fun ir => Raw.Pickup_Date (snd ir)) rs)))
    (sub (map (fun ir => Raw.Amount (snd ir)) rs)
         (add (fillna (map (fun ir => Raw.Driver_Pay (snd ir)) rs) 0)
              (fillna (map (fun ir => Raw.Lumper_Paid (snd ir)) rs) 0)))
  = map (fun ir => (fst ir, derive (snd ir))) rs.
Proof.
  unfold to_datetime, dt_date, sub, add, fillna.
  induction rs as [|[i r] rs IH]; simpl; [reflexivity|].
  rewrite IH. unfold derive.
  destruct (Raw.Driver_Pay r), (Raw.Lumper_Paid r); reflexivity.
Qed.

Lemma map_combine_snd A B C (f : B -> C) (l : list A) (b : list B) :
  map (fun ir => (fst ir, f (snd ir))) (combine l b) = combine l (map f b).
Proof.
  revert b. induction l as [|x l IH]; intros [|y b]; simpl;
    try reflexivity.
  rewrite IH. reflexivity.
Qed.


Lemma read_excel_workbook path sheet :
  read_excel path (Workbook sheet)
  = OK {| columns := header sheet;
          rows := combine (seq 0 (List.length (body sheet))) (body sheet) |}.
Proof. reflexivity. Qed.

Lemma load_data_workbook sheet :
  forallb (fun name => existsb (String.eqb name) (header sheet)) read_at_load
  = true ->
  load_data (Workbook sheet) = OK (loaded sheet).
Proof.
  unfold read_at_load. simpl. rewrite !andb_true_iff.
  intros (Hd & Ha & Hp & Hl & _).
  unfold load_data. rewrite read_excel_workbook. cbn [Py.bind].
  rewrite !getitem_ok by assumption. cbn [Py.bind columns rows].
  rewrite assign_derive, map_combine_snd. reflexivity.
Qed.

Lemma load_data_lacking sheet name :
  In name read_at_load ->
  existsb (String.eqb name) (header sheet) = false ->
  exists key, In key read_at_load /\
              load_data (Workbook sheet) = Raise (KeyError key).
Proof.
  intros Hin Hname. unfold load_data.
  rewrite read_excel_workbook. cbn [Py.bind]. unfold getitem, has_column.
  cbn [columns].
  destruct (existsb (String.eqb "Pickup Date") (header sheet)) eqn:E1;
    [|exists "Pickup Date"%string; simpl; tauto].
  cbn [Py.bind].
  destruct (existsb (String.eqb "Amount") (header sheet)) eqn:E2;
    [|exists "Amount"%string; simpl; tauto].
  cbn [Py.bind].
  destruct (existsb (String.eqb "Driver Pay") (header sheet)) eqn:E3;
    [|exists "Driver Pay"%string; simpl; tauto].
  cbn [Py.bind].
  destruct (existsb (String.eqb "Lumper Paid") (header sheet)) eqn:E4;
    [|exists "Lumper Paid"%string; simpl; tauto].
  exfalso. simpl in Hin.
  destruct Hin as [<-|[<-|[<-|[<-|[]]]]]; congruence.
Qed.

Lemma load_data_inv fs df :
  load_data fs = OK df ->
  exists sheet, fs = Workbook sheet /\ df = loaded sheet.
Proof.
  destruct fs as [|msg|sheet]; try discriminate.
  intro H. exists sheet. split; [reflexivity|].
  assert (Hall : forall name, In name read_at_load ->
                   existsb (String.eqb name) (header sheet) = true).
  { intros name Hin.
    destruct (existsb (String.eqb name) (header sheet)) eqn:E;
      [reflexivity|].
    destruct (load_data_lacking Hin E) as (key & _ & Hk). congruence. }
  apply forallb_forall in Hall.
  rewrite (load_data_workbook Hall) in H. congruence.
Qed.

Lemma setitem_label_has labels name n :
  existsb (String.eqb n) (setitem_label labels name) = true <->
  existsb (String.eqb n) labels = true \/ n = name.
Proof.
  unfold setitem_label.
  destruct (existsb (String.eqb name) labels) eqn:E.
  - split; [tauto|]. intros [H| ->]; assumption.
  - rewrite existsb_app. simpl. rewrite orb_false_r, orb_true_iff.
    rewrite String.eqb_eq. reflexivity.
Qed.

(** A file with every expected column loads into a table of the data
    model. *)
Lemma load_data_is_table sheet :
  forallb (fun name => existsb (String.eqb name) (header sheet))
          expected_columns = true ->
  load_data (Workbook sheet) = OK (loaded sheet) /\ is_table (loaded sheet).
Proof.
  intro H. rewrite forallb_forall in H. split.
  - apply load_data_workbook. apply forallb_forall. intros name Hin.
    apply H. unfold read_at_load in Hin. unfold expected_columns. simpl in *.
    intuition.
  - unfold is_table, has_columns, table_columns. apply forallb_forall.
    intros name Hin. unfold has_column, loaded. cbn [columns].
    apply setitem_label_has. apply in_app_or in Hin.
    destruct Hin as [Hin|[<-|[]]]; [left; apply H; exact Hin|right; reflexivity].
Qed.

(** *** The filter *)

Lemma keeps_all_dates inp v r :
  keeps_all (with_dates inp v) source_order r
  = keeps_all (with_dates inp (St.DateTuple [])) source_order r
    && keeps (with_dates inp v) ByDates r.
Proof.
  unfold keeps_all, source_order. simpl.
  rewrite !andb_true_r, !andb_assoc. reflexivity.
Qed.

Lemma keeps_dates_incomplete inp v r :
  complete v = false -> keeps (with_dates inp v) ByDates r = true.
Proof.
  destruct v as [d|[|s [|e [|x ds]]]]; simpl; intro H;
    try reflexivity; discriminate.
Qed.

Lemma keeps_all_categorical inp v r :
  keeps_all (with_dates inp v) source_order r
  = categorical inp r && keeps (with_dates inp v) ByDates r.
Proof.
  unfold keeps_all, source_order, categorical. simpl.
  rewrite !andb_true_r, !andb_assoc. reflexivity.
Qed.

(** C2.  Let [v0] be the rows of the table that pass the five categorical
    criteria, in the table's order.  With a start and an end date the filter
    returns exactly the rows of [v0] whose Pickup Date lies in
    [start, end], both ends included; with any other date selection (one
    bound only, or none) it returns [v0] itself, as if there were no date
    criterion. *)
Theorem date_range_filter df inp :
  is_table df ->
  exists v0,
    filtered_df df (with_dates inp (St.DateTuple [])) = OK v0 /\
    columns v0 = columns df /\
    rows v0 = filter (fun ir => categorical inp (snd ir)) (rows df) /\
    (forall start_date end_date,
        exists v,
          filtered_df df (with_dates inp (St.DateTuple [start_date; end_date]))
          = OK v /\
          columns v = columns df /\
          rows v = filter (fun ir => in_range start_date end_date (snd ir))
                          (rows v0) /\
          rows v = filter (fun ir => categorical inp (snd ir)
                                     && in_range start_date end_date (snd ir))
                          (rows df) /\
          (forall ir, In ir (rows v) <->
                      In ir (rows df) /\
                      categorical inp (snd ir) = true /\
                      (start_date <= Pickup_Date (snd ir) <= end_date)%Z)) /\
    (forall dates, complete dates = false ->
                   filtered_df df (with_dates inp dates) = OK v0).
Proof.
  intro Ht.
  exists (where_ (categorical inp) df).
  assert (H0 : forall dates, complete dates = false ->
                             filtered_df df (with_dates inp dates)
                             = OK (where_ (categorical inp) df)).
  { intros dates Hd. rewrite (filtered_df_where _ Ht). f_equal.
    apply where_ext. intro r. rewrite keeps_all_categorical.
    rewrite (keeps_dates_incomplete _ _ Hd). apply andb_true_r. }
  split; [apply H0; reflexivity|]. split; [reflexivity|].
  split; [reflexivity|]. split; [|exact H0].
  intros start_date end_date.
  exists (where_ (fun r => categorical inp r && in_range start_date end_date r) df).
  split.
  { rewrite (filtered_df_where _ Ht). f_equal.
    apply where_ext. intro r. apply keeps_all_categorical. }
  split; [reflexivity|].
  split; [rewrite <- where_where; reflexivity|].
  split; [reflexivity|].
  intro ir. unfold where_. cbn [rows]. rewrite filter_In. unfold in_range.
  rewrite !andb_true_iff, !Z.leb_le. tauto.
Qed.

Lemma date_range_filter_witness :
  is_table Scenario.two_loads_table /\
  exists v0 v,
    filtered_df Scenario.two_loads_table
                (with_dates (no_selection (St.DateTuple [])) (St.DateTuple [19724%Z]))
    = OK v0 /\
    v0 = Scenario.two_loads_table /\
    filtered_df Scenario.two_loads_table
                (with_dates (no_selection (St.DateTuple []))
                            (St.DateTuple [19724%Z; 19730%Z]))
    = OK v /\
    rows v = [(1%nat, derive Scenario.fresno)].
Proof.
  assert (Ht : is_table Scenario.two_loads_table) by reflexivity.
  split; [exact Ht|].
  destruct (date_range_filter (no_selection (St.DateTuple [])) Ht)
    as (v0 & _ & Hc0 & Hr0 & Hpair & Hinc).
  destruct (Hpair 19724%Z 19730%Z) as (v & Hv & _ & _ & Hr & _).
  exists v0, v. split; [apply Hinc; reflexivity|].
  split.
  - destruct v0 as [c0 r0]. simpl in Hc0, Hr0. subst c0 r0. reflexivity.
  - split; [exact Hv|]. rewrite Hr. reflexivity.
Defined.

(** C3.  With no categorical selection and no complete date range the
    filter returns the table itself. *)
Theorem empty_criteria_identity (df : DataFrame Load) dates :
  complete dates = false ->
  filtered_df df (no_selection dates) = OK df.
Proof.
  intro Hd. unfold filtered_df, no_selection, by_isin, copy. simpl.
  apply by_dates_incomplete. assumption.
Qed.

Lemma empty_criteria_identity_witness :
  complete (St.DateTuple [19723%Z]) = false /\
  filtered_df Scenario.two_loads_table (no_selection (St.DateTuple [19723%Z]))
  = OK Scenario.two_loads_table.
Proof.
  split; [reflexivity|].
  apply empty_criteria_identity. reflexivity.
Defined.

Lemma keeps_all_perm inp o1 o2 r :
  Permutation o1 o2 -> keeps_all inp o1 r = keeps_all inp o2 r.
Proof.
  unfold keeps_all.
  induction 1 as [|d a b H IH|d e a|a b c H1 IH1 H2 IH2]; simpl.
  - reflexivity.
  - rewrite IH. reflexivity.
  - rewrite !andb_assoc. f_equal. apply andb_comm.
  - congruence.
Qed.

(** C4.  Two runs of the filter statements that differ only in the order
    of the statements return the same view; the script's own order is one
    of them, and the run returns. *)
Theorem filter_order_independent df inp o1 o2 :
  is_table df ->
  Permutation o1 o2 ->
  filtered_in o1 df inp = filtered_in o2 df inp /\
  filtered_in source_order df inp = filtered_df df inp /\
  exists v, filtered_in o1 df inp = OK v.
Proof.
  intros Ht Hp. rewrite !(filtered_in_where _ _ Ht). split; [|split].
  - f_equal. apply where_ext. intro r. apply keeps_all_perm. assumption.
  - symmetry. apply (filtered_df_where _ Ht).
  - eexists. reflexivity.
Qed.

Lemma filter_order_independent_witness :
  is_table Scenario.two_loads_table /\
  Permutation [ByDates; ByCity; ByDriver; ByState; ByTruck; ByStatus]
              source_order /\
  filtered_in [ByDates; ByCity; ByDriver; ByState; ByTruck; ByStatus]
              Scenario.two_loads_table Scenario.driver_A
  = filtered_in source_order Scenario.two_loads_table Scenario.driver_A.
Proof.
  assert (Ht : is_table Scenario.two_loads_table) by reflexivity.
  assert (Hp : Permutation [ByDates; ByCity; ByDriver; ByState; ByTruck; ByStatus]
                           source_order).
  { unfold source_order. apply Permutation_sym.
    apply (@Permutation_cons_app _ _ [ByDates; ByCity] [ByState; ByTruck; ByStatus]).
    apply (@Permutation_cons_app _ _ [ByDates; ByCity; ByState; ByTruck] []).
    apply (@Permutation_cons_app _ _ [ByDates; ByCity; ByState] []).
    apply (@Permutation_cons_app _ _ [ByDates; ByCity] []).
    apply (@Permutation_cons_app _ _ [ByDates] []).
    apply Permutation_refl. }
  split; [exact Ht|]. split; [exact Hp|].
  exact (proj1 (filter_order_independent Scenario.driver_A Ht Hp)).
Defined.

Lemma narrows_refl df : narrows df df.
Proof. split; [reflexivity|apply subseq_refl]. Qed.

Lemma narrows_trans a b c : narrows a b -> narrows b c -> narrows a c.
Proof.
  intros [Hc1 Hs1] [Hc2 Hs2]. split; [congruence|].
  eapply subseq_trans; eassumption.
Qed.

Lemma narrows_loc df mask : narrows df (loc df mask).
Proof. split; [reflexivity|apply select_subseq]. Qed.

Lemma by_isin_narrows name field sel df v :
  by_isin name field sel df = OK v -> narrows df v.
Proof.
  unfold by_isin. destruct (truthy sel).
  - destruct (getitem df name field) as [s|e]; simpl; [|discriminate].
    intro H. injection H as <-. apply narrows_loc.
  - intro H. injection H as <-. apply narrows_refl.
Qed.

Lemma by_dates_narrows dates df v :
  by_dates dates df = OK v -> narrows df v.
Proof.
  unfold by_dates.
  destruct dates as [d|[|s [|e [|x ds]]]];
    try (intro H; injection H as <-; apply narrows_refl).
  destruct (getitem df "Pickup Date" Pickup_Date) as [col|e']; simpl;
    [|discriminate].
  intro H. injection H as <-. apply narrows_loc.
Qed.

Lemma statement_narrows inp d df v :
  statement inp d df = OK v -> narrows df v.
Proof.
  destruct d; simpl; first [apply by_isin_narrows | apply by_dates_narrows].
Qed.

Lemma fold_raise inp order e :
  fold_left (fun acc d => Py.bind acc (statement inp d)) order (Raise e)
  = Raise e.
Proof. induction order as [|d order IH]; simpl; [reflexivity|exact IH]. Qed.

Lemma fold_narrows inp order : forall df v,
  fold_left (fun acc d => Py.bind acc (statement inp d)) order (OK df) = OK v ->
  narrows df v.
Proof.
  induction order as [|d order IH]; intros df v; simpl.
  - intro H. injection H as <-. apply narrows_refl.
  - destruct (statement inp d df) as [df'|e] eqn:E.
    + intro H. eapply narrows_trans; [eapply statement_narrows; exact E|].
      apply IH. exact H.
    + rewrite fold_raise. discriminate.
Qed.

Lemma labels_combine A (l : list nat) (b : list A) :
  List.length l = List.length b -> map fst (combine l b) = l.
Proof.
  revert b. induction l as [|x l IH]; intros [|y b] H; simpl in *;
    try reflexivity; try discriminate.
  rewrite IH by lia. reflexivity.
Qed.

(** The labels [read_excel] gives are distinct, and [load_data] keeps
    them. *)
Lemma load_data_labels fs df :
  load_data fs = OK df -> NoDup (map fst (rows df)).
Proof.
  intro H. destruct (load_data_inv H) as (sheet & -> & ->).
  unfold loaded. cbn [rows].
  rewrite labels_combine by (rewrite length_seq, length_map; reflexivity).
  apply seq_NoDup.
Qed.

(** C10.  Whenever the filter returns a view, the view has the columns of
    the table and its rows are rows of the table, each as it is in the
    table (label and all field values) and in the table's order; when the
    labels of the table are distinct, as they are in every table
    [load_data] returns, so are those of the view: no row is taken twice.
    On a table with the columns of the data model the filter does return a
    view. *)
Theorem filtered_view_subsequence df inp :
  (forall v, filtered_df df inp = OK v ->
             columns v = columns df /\
             subseq (rows v) (rows df) /\
             (NoDup (map fst (rows df)) -> NoDup (map fst (rows v))) /\
             (forall fs, load_data fs = OK df -> NoDup (map fst (rows v)))) /\
  (is_table df -> exists v, filtered_df df inp = OK v).
Proof.
  split.
  - intros v Hv. rewrite filtered_df_in_source_order in Hv.
    apply fold_narrows in Hv. destruct Hv as [Hc Hs].
    assert (Hn : NoDup (map fst (rows df)) -> NoDup (map fst (rows v))).
    { apply subseq_NoDup. apply subseq_map. exact Hs. }
    split; [exact Hc|]. split; [exact Hs|]. split; [exact Hn|].
    intros fs Hfs. apply Hn. apply (load_data_labels Hfs).
  - intro Ht. eexists. apply (filtered_df_where _ Ht).
Qed.

Lemma filtered_view_subsequence_witness :
  is_table Scenario.two_loads_table /\
  exists v,
    filtered_df Scenario.two_loads_table Scenario.driver_A = OK v /\
    subseq (rows v) (rows Scenario.two_loads_table) /\
    NoDup (map fst (rows v)).
Proof.
  assert (Ht : is_table Scenario.two_loads_table) by reflexivity.
  split; [exact Ht|].
  destruct (filtered_view_subsequence Scenario.two_loads_table Scenario.driver_A)
    as [Hsub Hret].
  destruct (Hret Ht) as (v & Hv).
  destruct (Hsub v Hv) as (_ & Hs & _ & Hn).
  exists v. split; [exact Hv|]. split; [exact Hs|].
  apply (Hn Scenario.two_loads). reflexivity.
Defined.

(** *** The aggregates *)

(** C5.  On a view without rows, [summarize] returns: Revenue 0, Profit 0,
    Average Rate-Per-Mile 0, Load Count 0, and the four grouped aggregates
    empty. *)
Theorem summarize_empty_view v :
  is_table v -> rows v = [] -> summarize v = OK zero_aggregates.
Proof.
  intros Ht Hr.
  unfold summarize, revenue, profit, avg_rpm, d_sum, t_sum, s_counts, b_sum,
    groupby_getitem, loads, len, empty.
  rewrite !getitem_ok by column.
  rewrite !(is_table_column Ht) by (simpl; tauto).
  rewrite Hr. reflexivity.
Qed.

Lemma summarize_empty_view_witness :
  is_table {| columns := table_columns; rows := [] |} /\
  summarize {| columns := table_columns; rows := [] |} = OK zero_aggregates.
Proof.
  split; [reflexivity|].
  apply summarize_empty_view; reflexivity.
Defined.

Lemma groupby_sum_keys K (eqb leb : K -> K -> bool) keys values :
  map fst (groupby_sum eqb leb keys values) = sorted leb (unique eqb keys).
Proof.
  unfold groupby_sum. rewrite map_map. simpl. apply map_id.
Qed.

Lemma value_counts_keys K (eqb : K -> K -> bool) s :
  Permutation (map fst (value_counts eqb s)) (unique eqb s).
Proof.
  unfold value_counts. rewrite sorted_perm, map_map. simpl.
  rewrite map_id. reflexivity.
Qed.

Lemma in_column K (field : Load -> K) (rs : list (nat * Load)) k :
  In k (map (fun ir => field (snd ir)) rs) <->
  exists ir, In ir rs /\ field (snd ir) = k.
Proof.
  rewrite in_map_iff. split; intros (ir & H1 & H2); exists ir; tauto.
Qed.

Lemma groupby_sum_groups K (eqb leb : K -> K -> bool) (field : Load -> K)
      (v : DataFrame Load) values :
  (forall x y, eqb x y = true <-> x = y) ->
  groups_of field v
    (groupby_sum eqb leb (map (fun ir => field (snd ir)) (rows v)) values).
Proof.
  intro Heq. unfold groups_of. rewrite groupby_sum_keys. split.
  - apply sorted_NoDup. apply unique_NoDup. assumption.
  - intro k. rewrite sorted_In, (unique_In Heq). apply in_column.
Qed.

Lemma value_counts_groups K (eqb : K -> K -> bool) (field : Load -> K)
      (v : DataFrame Load) :
  (forall x y, eqb x y = true <-> x = y) ->
  groups_of field v
    (value_counts eqb (map (fun ir => field (snd ir)) (rows v))).
Proof.
  intro Heq. unfold groups_of. split.
  - eapply Permutation_NoDup;
      [symmetry; apply value_counts_keys|apply unique_NoDup; assumption].
  - intro k. split; intro H.
    + apply in_column. apply (unique_In Heq).
      eapply Permutation_in; [apply value_counts_keys|exact H].
    + apply in_column in H. apply (unique_In Heq) in H.
      eapply Permutation_in; [symmetry; apply value_counts_keys|exact H].
Qed.

(** The grouped aggregates hold the categories present in the view, each
    once, and no other. *)
Lemma summarize_groups v agg :
  summarize v = OK agg ->
  groups_of Driver v (Revenue_by_Driver agg) /\
  groups_of Pickup_Date v (Revenue_by_Date agg) /\
  groups_of Pickup_State v (Count_by_State agg) /\
  groups_of Broker_Name v (Profit_by_Broker agg).
Proof.
  unfold summarize, d_sum, t_sum, s_counts, b_sum, groupby_getitem, getitem.
  destruct (revenue v); [|discriminate].
  destruct (profit v); [|discriminate].
  destruct (avg_rpm v); [|discriminate]. cbn [Py.bind].
  destruct (has_column v "Driver"); [|discriminate]. cbn [Py.bind].
  destruct (has_column v "Amount"); [|discriminate]. cbn [Py.bind].
  destruct (has_column v "Pickup Date"); [|discriminate]. cbn [Py.bind].
  destruct (has_column v "Pickup State"); [|discriminate]. cbn [Py.bind].
  destruct (has_column v "Broker Name"); [|discriminate]. cbn [Py.bind].
  destruct (has_column v "Net Profit"); [|discriminate]. cbn [Py.bind].
  intro H. injection H as <-. cbn [Revenue_by_Driver Revenue_by_Date
    Count_by_State Profit_by_Broker fst snd].
  split; [apply groupby_sum_groups; apply string_eqb_spec|].
  split; [apply groupby_sum_groups; apply Z_eqb_spec|].
  split; [apply value_counts_groups; apply string_eqb_spec|].
  apply groupby_sum_groups; apply string_eqb_spec.
Qed.

(** *** The city options *)

Lemma sorted_unique_cities (rs : list (nat * Load)) c :
  In c (sorted String.leb
          (unique String.eqb (map (fun ir => PPickup_City (snd ir)) rs))) <->
  exists ir, In ir rs /\ PPickup_City (snd ir) = c.
Proof.
  rewrite sorted_In, (unique_In string_eqb_spec). apply in_column.
Qed.

Lemma sorted_unique_NoDup (s : Series string) :
  NoDup (sorted String.leb (unique String.eqb s)).
Proof. apply sorted_NoDup. apply unique_NoDup. apply string_eqb_spec. Qed.

(** C6.  With no state selected the city options are the cities that occur
    in the table; with states selected they are the cities of the rows
    whose Pickup State is one of them.  Each city is listed once. *)
Theorem opts_cities df :
  is_table df ->
  (exists cities,
      opts df [] = OK cities /\ NoDup cities /\
      forall c, In c cities <->
                exists ir, In ir (rows df) /\ PPickup_City (snd ir) = c) /\
  (forall sel_state, sel_state <> [] ->
     exists cities,
       opts df sel_state = OK cities /\ NoDup cities /\
       forall c, In c cities <->
                 exists ir, In ir (rows df) /\
                            In (Pickup_State (snd ir)) sel_state /\
                            PPickup_City (snd ir) = c).
Proof.
  intro Ht. split.
  - eexists. unfold opts. simpl truthy. cbv iota.
    rewrite getitem_ok by column. cbn [Py.bind].
    split; [reflexivity|]. split; [apply sorted_unique_NoDup|].
    intro c. apply sorted_unique_cities.
  - intros sel Hsel. destruct sel as [|st sel]; [congruence|].
    eexists. unfold opts. simpl truthy. cbv iota.
    rewrite (getitem_ok (df := df)) by column. cbn [Py.bind].
    rewrite loc_isin.
    rewrite getitem_ok by (apply (is_table_column (is_table_where _ Ht));
                           simpl; tauto).
    cbn [Py.bind].
    split; [reflexivity|]. split; [apply sorted_unique_NoDup|].
    intro c. rewrite sorted_unique_cities. unfold where_. cbn [rows].
    split.
    + intros (ir & Hin & Hc). apply filter_In in Hin. destruct Hin as [Hin Hs].
      exists ir. split; [assumption|]. split; [|assumption].
      apply (existsb_eqb string_eqb_spec). assumption.
    + intros (ir & Hin & Hs & Hc). exists ir. split; [|assumption].
      apply filter_In. split; [assumption|].
      apply (existsb_eqb string_eqb_spec). assumption.
Qed.

Lemma opts_cities_witness :
  is_table Scenario.two_loads_table /\
  opts Scenario.two_loads_table [] = OK ["Fresno"; "Houston"]%string /\
  exists cities,
    opts Scenario.two_loads_table ["TX"%string] = OK cities /\
    In "Houston"%string cities.
Proof.
  assert (Ht : is_table Scenario.two_loads_table) by reflexivity.
  split; [exact Ht|]. split; [reflexivity|].
  destruct (proj2 (opts_cities Ht) ["TX"%string]) as (cities & Ho & _ & Hc);
    [discriminate|].
  exists cities. split; [exact Ho|].
  apply Hc. exists (0%nat, derive Scenario.houston).
  simpl. repeat split; left; reflexivity.
Defined.

(** *** The three-load scenario *)

Lemma three_loads_loaded r1 r2 r3 :
  load_data (Scenario.three_loads r1 r2 r3)
  = OK (Scenario.three_loads_table r1 r2 r3).
Proof. reflexivity. Qed.

Lemma three_loads_driver_A r1 r2 r3 :
  filtered_df (Scenario.three_loads_table r1 r2 r3) Scenario.driver_A
  = OK (Scenario.driver_A_view r1 r2 r3).
Proof. reflexivity. Qed.

(** C7.  On the three-load table, the criteria Driver in {A} retain the
    first and the third load (amounts 100 and 150); on that view Revenue is
    250, Profit 230 and Load Count 2, and each grouped aggregate lists the
    categories present in the view and no other; Count-by-State on the
    whole table is TX: 2, CA: 1. *)
Theorem scenario_three_loads r1 r2 r3 :
  load_data (Scenario.three_loads r1 r2 r3)
  = OK (Scenario.three_loads_table r1 r2 r3) /\
  filtered_df (Scenario.three_loads_table r1 r2 r3) Scenario.driver_A
  = OK (Scenario.driver_A_view r1 r2 r3) /\
  map (fun ir => (fst ir, Driver (snd ir), Amount (snd ir)))
      (rows (Scenario.driver_A_view r1 r2 r3))
  = [(0%nat, "A"%string, Some 100%Q); (2%nat, "A"%string, Some 150%Q)] /\
  (exists agg,
      summarize (Scenario.driver_A_view r1 r2 r3) = OK agg /\
      (Revenue agg == 250)%Q /\ (Profit agg == 230)%Q /\
      Load_Count agg = 2%nat /\
      groups_of Driver (Scenario.driver_A_view r1 r2 r3) (Revenue_by_Driver agg) /\
      groups_of Pickup_Date (Scenario.driver_A_view r1 r2 r3) (Revenue_by_Date agg) /\
      groups_of Pickup_State (Scenario.driver_A_view r1 r2 r3) (Count_by_State agg) /\
      groups_of Broker_Name (Scenario.driver_A_view r1 r2 r3) (Profit_by_Broker agg)) /\
  s_counts (Scenario.three_loads_table r1 r2 r3)
  = OK [("TX"%string, 2%nat); ("CA"%string, 1%nat)].
Proof.
  split; [apply three_loads_loaded|].
  split; [apply three_loads_driver_A|].
  split; [reflexivity|].
  split; [|reflexivity].
  assert (Hs : exists agg, summarize (Scenario.driver_A_view r1 r2 r3) = OK agg /\
                           Revenue agg = 250%Q /\ Profit agg = 230%Q /\
                           Load_Count agg = 2%nat).
  { eexists. split; [reflexivity|]. repeat split; vm_compute; reflexivity. }
  destruct Hs as (agg & Hs & Hr & Hp & Hl).
  exists agg. split; [exact Hs|].
  split; [rewrite Hr; reflexivity|]. split; [rewrite Hp; reflexivity|].
  split; [exact Hl|]. apply summarize_groups. exact Hs.
Qed.

(** *** Failures *)

(** Whatever the [try] body raises is shown after what was rendered so far,
    and the run ends normally. *)
Lemma run_surfaces fs inp page e :
  try_block fs inp preamble = (page, Raise e) ->
  run fs inp = (page ++ [St.Error ("Error: " ++ str e)], OK tt).
Proof.
  intro H. unfold run, script, St.bind, St.set_page_config, St.markdown,
    St.render, St.try_except. simpl.
  change [St.PageConfig "Trucking Analytics" "wide"; St.Markdown St.page_style]
    with preamble.
  rewrite H. reflexivity.
Qed.

Lemma run_returns fs inp : snd (run fs inp) = OK tt.
Proof.
  unfold run, script, St.bind, St.set_page_config, St.markdown,
    St.render, St.try_except. simpl.
  destruct (try_block fs inp _) as [page [u|e]]; reflexivity.
Qed.

Lemma try_block_load_failure fs inp page e :
  load_data fs = Raise e -> try_block fs inp page = (page, Raise e).
Proof.
  intro H. unfold try_block, St.bind, St.lift. rewrite H. reflexivity.
Qed.

(** C9 (amended).  When the file is missing or malformed, or lacks one of
    the columns [load_data] reads (Pickup Date, Amount, Driver Pay, Lumper
    Paid), [load_data] raises; the script catches the exception, shows
    "Error: " followed by its text under what was rendered before the
    [try], and ends normally. *)
Theorem load_failure_surfaced fs inp :
  fs = Missing \/ (exists msg, fs = Malformed msg) \/
  (exists name, In name read_at_load /\ lacks fs name) ->
  exists e,
    load_data fs = Raise e /\
    run fs inp = (load_failure_page e, OK tt).
Proof.
  intro H.
  assert (He : exists e, load_data fs = Raise e).
  { destruct H as [->|[(msg & ->)|(name & Hin & sheet & -> & Hl)]].
    - eexists. reflexivity.
    - eexists. reflexivity.
    - destruct (load_data_lacking Hin Hl) as (key & _ & Hk).
      eexists. exact Hk. }
  destruct He as (e & He). exists e. split; [exact He|].
  rewrite (run_surfaces (try_block_load_failure inp preamble He)).
  reflexivity.
Qed.

Lemma load_failure_surfaced_witness :
  lacks Scenario.no_amount "Amount" /\
  exists e,
    load_data Scenario.no_amount = Raise e /\
    run Scenario.no_amount Scenario.driver_A = (load_failure_page e, OK tt).
Proof.
  assert (Hl : lacks Scenario.no_amount "Amount").
  { eexists. split; reflexivity. }
  split; [exact Hl|].
  apply load_failure_surfaced. right. right.
  exists "Amount"%string. split; [simpl; tauto|exact Hl].
Defined.

(** C9 as stated fails: a file that lacks the expected column Broker Name
    is loaded without any exception. *)
Lemma load_succeeds_without_broker :
  In "Broker Name"%string expected_columns /\
  lacks Scenario.no_broker "Broker Name" /\
  exists df, load_data Scenario.no_broker = OK df.
Proof.
  split; [simpl; tauto|]. split.
  - eexists. split; reflexivity.
  - eexists. reflexivity.
Qed.

(** On that file the exception comes from the last chart, after the
    filters, the metrics and three charts were rendered; it is shown as
    well. *)
Example missing_broker_page :
  List.length (fst (run Scenario.no_broker Scenario.driver_A)) = 19%nat /\
  last (fst (run Scenario.no_broker Scenario.driver_A)) (St.Markdown St.page_title)
  = St.Error "Error: 'Broker Name'" /\
  snd (run Scenario.no_broker Scenario.driver_A) = OK tt.
Proof. repeat split. Qed.

End AppFacts.

(* ===================================================================== *)
(** ** Further properties of loadapp.py *)
(* ===================================================================== *)

Module AppProps.
Import Py Pd App Spec Derived PdFacts AppFacts.

(** *** [load_data] *)

Lemma on_day_div ts : on_day ts (ts / ns_per_day)%Z.
Proof.
  unfold on_day. assert (H : (0 < ns_per_day)%Z) by reflexivity.
  split.
  - rewrite Z.mul_comm. apply Z.mul_div_le. exact H.
  - rewrite Z.mul_comm. apply Z.mul_succ_div_gt. exact H.
Qed.

Lemma loaded_days (raws : list Raw.Load) : forall k,
  Forall2 (fun raw ir => on_day (Raw.Pickup_Date raw) (Pickup_Date (snd ir)))
          raws
          (combine (seq k (List.length raws)) (map derive raws)).
Proof.
  induction raws as [|raw raws IH]; intro k; simpl; constructor.
  - apply on_day_div.
  - apply IH.
Qed.

(** X2.  The Pickup Date of a loaded line is the calendar day on which the
    timestamp of the sheet line falls: the time of day is dropped, also for
    timestamps before 1970. *)
Theorem load_data_pickup_day sheet df :
  load_data (Workbook sheet) = OK df ->
  Forall2 (fun raw ir => on_day (Raw.Pickup_Date raw) (Pickup_Date (snd ir)))
          (body sheet) (rows df).
Proof.
  intro H. destruct (load_data_inv H) as (sheet' & E & ->).
  injection E as <-. apply loaded_days.
Qed.

Lemma load_data_pickup_day_witness :
  load_data Scenario.two_loads = OK Scenario.two_loads_table /\
  Forall2 (fun raw ir => on_day (Raw.Pickup_Date raw) (Pickup_Date (snd ir)))
          [Scenario.houston; Scenario.fresno]
          (rows Scenario.two_loads_table).
Proof.
  assert (H : load_data Scenario.two_loads = OK Scenario.two_loads_table)
    by reflexivity.
  split; [exact H|]. exact (load_data_pickup_day H).
Defined.

(** *** The filter *)

Lemma selected_admits sel v : selected sel v = true <-> admits sel v.
Proof.
  unfold selected, admits. rewrite orb_true_iff.
  rewrite (existsb_eqb string_eqb_spec).
  destruct sel as [|x sel]; simpl.
  - split; [left; reflexivity|left; reflexivity].
  - split; intros [H|H]; try discriminate; right; assumption.
Qed.

Lemma keeps_dates_in_dates inp r :
  keeps inp ByDates r = true <-> in_dates (sel_dates inp) (Pickup_Date r).
Proof.
  unfold keeps, in_dates, in_range.
  destruct (sel_dates inp) as [d|[|s [|e [|x ds]]]]; try tauto.
  rewrite andb_true_iff, !Z.leb_le. tauto.
Qed.

Lemma keeps_all_satisfies inp r :
  keeps_all inp source_order r = true <-> satisfies inp r.
Proof.
  unfold keeps_all, source_order, satisfies. cbn [forallb].
  rewrite !andb_true_iff, keeps_dates_in_dates.
  unfold keeps. rewrite !selected_admits. tauto.
Qed.

Lemma where_ext_in p q df :
  (forall ir, In ir (rows df) -> p (snd ir) = q (snd ir)) ->
  where_ p df = where_ q df.
Proof.
  intro H. unfold where_. f_equal. apply filter_ext_in. exact H.
Qed.

Lemma filter_subseq A (p q : A -> bool) l :
  (forall x, In x l -> p x = true -> q x = true) ->
  subseq (filter p l) (filter q l).
Proof.
  induction l as [|x l IH]; intro H; simpl; [constructor|].
  assert (IH' : subseq (filter p l) (filter q l)).
  { apply IH. intros y Hy. apply H. right. exact Hy. }
  destruct (p x) eqn:Ep.
  - rewrite (H x (or_introl eq_refl) Ep). constructor. exact IH'.
  - destruct (q x); [apply subseq_drop|]; exact IH'.
Qed.

(** X3.  A row of the table is in the filtered view exactly when it
    passes every criterion: for each dimension, nothing is selected or the
    row's value is among the selected ones, and the Pickup Date lies in the
    date range when both ends are given. *)
Theorem filtered_view_rows df inp :
  is_table df ->
  exists v,
    filtered_df df inp = OK v /\
    forall ir, In ir (rows v) <-> In ir (rows df) /\ satisfies inp (snd ir).
Proof.
  intro Ht. eexists. split; [apply (filtered_df_where _ Ht)|].
  intro ir. unfold where_. cbn [rows].
  rewrite filter_In, keeps_all_satisfies. reflexivity.
Qed.

Lemma filtered_view_rows_witness :
  is_table Scenario.two_loads_table /\
  exists v,
    filtered_df Scenario.two_loads_table Scenario.driver_A = OK v /\
    In (0%nat, derive Scenario.houston) (rows v).
Proof.
  assert (Ht : is_table Scenario.two_loads_table) by reflexivity.
  split; [exact Ht|].
  destruct (filtered_view_rows Scenario.driver_A Ht) as (v & Hv & Hin).
  exists v. split; [exact Hv|]. apply Hin. split.
  - left. reflexivity.
  - unfold satisfies, admits, in_dates. simpl. intuition.
Defined.

(** X4.  Filtering a view again with the criteria that produced it
    changes nothing. *)
Theorem filtered_df_idempotent df inp v :
  is_table df ->
  filtered_df df inp = OK v ->
  filtered_df v inp = OK v.
Proof.
  intros Ht Hv. rewrite (filtered_df_where _ Ht) in Hv. injection Hv as <-.
  rewrite (filtered_df_where _ (is_table_where _ Ht)).
  rewrite where_where. f_equal. apply where_ext. intro r.
  apply andb_diag.
Qed.

Lemma filtered_df_idempotent_witness :
  is_table Scenario.two_loads_table /\
  exists v,
    filtered_df Scenario.two_loads_table Scenario.driver_A = OK v /\
    filtered_df v Scenario.driver_A = OK v.
Proof.
  assert (Ht : is_table Scenario.two_loads_table) by reflexivity.
  split; [exact Ht|].
  eexists. split; [reflexivity|].
  apply (filtered_df_idempotent (df := Scenario.two_loads_table) Ht).
  reflexivity.
Defined.

Lemma wider_sel_admits sel1 sel2 v :
  wider_sel sel1 sel2 -> admits sel1 v -> admits sel2 v.
Proof.
  unfold wider_sel, admits. intros [H|[Hne Hincl]] [H1|H1]; auto.
  contradiction.
Qed.

Lemma wider_dates_in_dates v1 v2 d :
  wider_dates v1 v2 -> in_dates v1 d -> in_dates v2 d.
Proof.
  intros [H|(s1 & e1 & s2 & e2 & -> & -> & Hs & He)].
  - destruct v2 as [x|[|s [|e [|x ds]]]]; simpl; try tauto. discriminate.
  - simpl. lia.
Qed.

Lemma wider_satisfies inp1 inp2 r :
  wider inp1 inp2 -> satisfies inp1 r -> satisfies inp2 r.
Proof.
  unfold wider, satisfies.
  intros (W1 & W2 & W3 & W4 & W5 & W6) (S1 & S2 & S3 & S4 & S5 & S6).
  repeat split;
    first [eapply wider_sel_admits; eassumption
          |eapply wider_dates_in_dates; eassumption].
Qed.

(** X5.  Widening the criteria never loses a row: when every selection of
    the second criteria is empty or contains the (non-empty) selection of
    the first, and its date range is absent or contains the first one, the
    first view is the second view with some rows left out. *)
Theorem filtered_df_monotone df inp1 inp2 v1 v2 :
  is_table df ->
  wider inp1 inp2 ->
  filtered_df df inp1 = OK v1 ->
  filtered_df df inp2 = OK v2 ->
  subseq (rows v1) (rows v2).
Proof.
  intros Ht Hw H1 H2.
  rewrite (filtered_df_where inp1 Ht) in H1.
  rewrite (filtered_df_where inp2 Ht) in H2.
  injection H1 as <-. injection H2 as <-.
  unfold where_. cbn [rows]. apply filter_subseq.
  intros ir _ Hk. apply keeps_all_satisfies.
  apply (wider_satisfies Hw). apply keeps_all_satisfies. exact Hk.
Qed.

Lemma filtered_df_monotone_witness :
  is_table Scenario.two_loads_table /\
  wider Scenario.driver_A (no_selection (St.DateTuple [])) /\
  exists v1,
    filtered_df Scenario.two_loads_table Scenario.driver_A = OK v1 /\
    subseq (rows v1) (rows Scenario.two_loads_table).
Proof.
  assert (Ht : is_table Scenario.two_loads_table) by reflexivity.
  assert (Hw : wider Scenario.driver_A (no_selection (St.DateTuple []))).
  { unfold wider, wider_sel, wider_dates. simpl. intuition. }
  split; [exact Ht|]. split; [exact Hw|].
  eexists. split; [reflexivity|].
  apply (filtered_df_monotone (df := Scenario.two_loads_table)
           (inp1 := Scenario.driver_A)
           (inp2 := no_selection (St.DateTuple [])) Ht Hw);
    reflexivity.
Defined.

(** *** Sorting *)

Section InsertionSort.
Variable A : Type.
Variable leb : A -> A -> bool.
Hypothesis leb_total : forall x y, leb x y = true \/ leb y x = true.

Lemma insert_HdRel a x l :
  ordered leb a x -> HdRel (ordered leb) a l ->
  HdRel (ordered leb) a (insert leb x l).
Proof.
  intros Hax Hl. destruct l as [|y l]; simpl.
  - constructor. exact Hax.
  - destruct (leb x y); constructor; [exact Hax|].
    inversion Hl; subst. assumption.
Qed.

Lemma insert_Sorted x l :
  Sorted (ordered leb) l -> Sorted (ordered leb) (insert leb x l).
Proof.
  induction 1 as [|y l Hs IH Hd]; simpl.
  - constructor; constructor.
  - destruct (leb x y) eqn:E.
    + constructor; [constructor; assumption|]. constructor. exact E.
    + constructor; [exact IH|].
      apply insert_HdRel; [|exact Hd].
      destruct (leb_total x y) as [H|H]; [congruence|exact H].
Qed.

Lemma sorted_Sorted l : Sorted (ordered leb) (sorted leb l).
Proof.
  induction l as [|x l IH]; simpl; [constructor|].
  apply insert_Sorted. exact IH.
Qed.
End InsertionSort.

Lemma min_le (s : Series date) lo :
  Pd.min s = Some lo -> forall d, In d s -> (lo <= d)%Z.
Proof.
  destruct s as [|d0 s]; [discriminate|]. simpl. intro H. injection H as <-.
  assert (G : forall a, (fold_left Z.min s a <= a)%Z /\
                        forall d, In d s -> (fold_left Z.min s a <= d)%Z).
  { induction s as [|x s IH]; intro a; simpl.
    - split; [lia|tauto].
    - destruct (IH (Z.min a x)) as [H1 H2]. split; [lia|].
      intros d [<-|Hd]; [lia|apply H2; exact Hd]. }
  destruct (G d0) as [G1 G2].
  intros d [<-|Hd]; [exact G1|apply G2; exact Hd].
Qed.

Lemma max_ge (s : Series date) hi :
  Pd.max s = Some hi -> forall d, In d s -> (d <= hi)%Z.
Proof.
  destruct s as [|d0 s]; [discriminate|]. simpl. intro H. injection H as <-.
  assert (G : forall a, (a <= fold_left Z.max s a)%Z /\
                        forall d, In d s -> (d <= fold_left Z.max s a)%Z).
  { induction s as [|x s IH]; intro a; simpl.
    - split; [lia|tauto].
    - destruct (IH (Z.max a x)) as [H1 H2]. split; [lia|].
      intros d [<-|Hd]; [lia|apply H2; exact Hd]. }
  destruct (G d0) as [G1 G2].
  intros d [<-|Hd]; [exact G1|apply G2; exact Hd].
Qed.

(** *** The options of the selectors *)

Lemma options_value df name field :
  has_column df name = true ->
  options df name field
  = OK (sorted String.leb
          (unique String.eqb (map (fun ir => field (snd ir)) (rows df)))).
Proof.
  intro H. unfold options. rewrite (getitem_ok _ H). reflexivity.
Qed.

Lemma opts_value df sel :
  is_table df ->
  opts df sel
  = OK (sorted String.leb
          (unique String.eqb
             (map (fun ir => PPickup_City (snd ir))
                  (rows (if truthy sel
                         then where_ (fun r => existsb (String.eqb (Pickup_State r)) sel) df
                         else df))))).
Proof.
  intro Ht. unfold opts. destruct (truthy sel).
  - rewrite (getitem_ok (df := df)) by column. cbn [Py.bind].
    rewrite loc_isin.
    rewrite getitem_ok by (apply (is_table_column (is_table_where _ Ht));
                           simpl; tauto).
    reflexivity.
  - rewrite getitem_ok by column. reflexivity.
Qed.

(** X7.  The city options are in ascending order, and selecting states
    only removes cities from them: every city offered under a state
    selection is offered when no state is selected. *)
Theorem opts_sorted_narrowing df sel :
  is_table df ->
  exists cities all_cities,
    opts df sel = OK cities /\
    opts df [] = OK all_cities /\
    Sorted (ordered String.leb) cities /\
    incl cities all_cities.
Proof.
  intro Ht. eexists. eexists.
  split; [apply (opts_value _ Ht)|]. split; [apply (opts_value _ Ht)|].
  split; [apply sorted_Sorted; apply String.leb_total|].
  intros c. cbn [truthy].
  rewrite !sorted_In, !(unique_In string_eqb_spec), !in_column.
  intros (ir & Hin & Hc). exists ir. split; [|exact Hc].
  destruct (truthy sel); [|exact Hin].
  unfold where_ in Hin. cbn [rows] in Hin. apply filter_In in Hin. tauto.
Qed.

Lemma opts_sorted_narrowing_witness :
  is_table Scenario.two_loads_table /\
  exists cities all_cities,
    opts Scenario.two_loads_table ["CA"%string] = OK cities /\
    opts Scenario.two_loads_table [] = OK all_cities /\
    incl cities all_cities.
Proof.
  assert (Ht : is_table Scenario.two_loads_table) by reflexivity.
  split; [exact Ht|].
  destruct (opts_sorted_narrowing ["CA"%string] Ht)
    as (cities & all_cities & H1 & H2 & _ & H3).
  exists cities, all_cities. repeat split; assumption.
Defined.

(** *** Selections that do not restrict *)

Lemma where_same p q df :
  (forall ir, In ir (rows df) -> (p (snd ir) = true <-> q (snd ir) = true)) ->
  where_ p df = where_ q df.
Proof.
  intro H. apply where_ext_in. intros ir Hin.
  apply Bool.eq_iff_eq_true. apply H. exact Hin.
Qed.

Lemma admits_options (field : Load -> string) (rs : list (nat * Load)) ir :
  In ir rs ->
  admits (sorted String.leb
            (unique String.eqb (map (fun jr => field (snd jr)) rs)))
         (field (snd ir)).
Proof.
  intro Hin. right. rewrite sorted_In, (unique_In string_eqb_spec).
  apply in_column. exists ir. split; [exact Hin|reflexivity].
Qed.

(** X8.  Selecting every option of every selector is the same as selecting
    nothing: the view is the one the date selection alone gives. *)
Theorem select_all_is_no_selection df dates :
  is_table df ->
  exists drivers statuses trucks states cities,
    options df "Driver" Driver = OK drivers /\
    options df "Delivery Status" Delivery_Status = OK statuses /\
    options df "Truck#" Truck = OK trucks /\
    options df "Pickup State" Pickup_State = OK states /\
    opts df states = OK cities /\
    filtered_df df (select_all drivers statuses trucks states cities dates)
    = filtered_df df (no_selection dates).
Proof.
  intro Ht. do 5 eexists.
  split; [apply options_value; column|].
  split; [apply options_value; column|].
  split; [apply options_value; column|].
  split; [apply options_value; column|].
  split; [apply (opts_value _ Ht)|].
  rewrite !(filtered_df_where _ Ht). f_equal. apply where_same.
  intros ir Hin. rewrite !keeps_all_satisfies. unfold satisfies.
  cbn [select_all no_selection sel_driver sel_status sel_truck sel_state
       sel_city sel_dates].
  split; intros (_ & _ & _ & _ & _ & Hd).
  - repeat split; try (left; reflexivity). exact Hd.
  - split; [apply admits_options; exact Hin|].
    split; [apply admits_options; exact Hin|].
    split; [apply admits_options; exact Hin|].
    split; [apply admits_options; exact Hin|].
    split; [|exact Hd].
    right. rewrite sorted_In, (unique_In string_eqb_spec). apply in_column.
    exists ir. split; [|reflexivity].
    destruct (truthy _); [|exact Hin].
    unfold where_. cbn [rows]. apply filter_In. split; [exact Hin|].
    apply (existsb_eqb string_eqb_spec).
    rewrite sorted_In, (unique_In string_eqb_spec). apply in_column.
    exists ir. split; [exact Hin|reflexivity].
Qed.

Lemma select_all_is_no_selection_witness :
  is_table Scenario.two_loads_table /\
  filtered_df Scenario.two_loads_table
    (select_all ["A"; "B"] ["Delivered"; "Pending"] ["T1"; "T2"] ["CA"; "TX"]
                ["Fresno"; "Houston"] (St.DateTuple []))%string
  = filtered_df Scenario.two_loads_table (no_selection (St.DateTuple [])).
Proof.
  assert (Ht : is_table Scenario.two_loads_table) by reflexivity.
  split; [exact Ht|].
  destruct (select_all_is_no_selection (St.DateTuple []) Ht)
    as (d & s & t & st & c & Hd & Hs & Htr & Hst & Hc & H).
  vm_compute in Hd, Hs, Htr, Hst.
  injection Hd as <-. injection Hs as <-. injection Htr as <-.
  injection Hst as <-. vm_compute in Hc. injection Hc as <-.
  exact H.
Defined.

(** X9.  The date range the page proposes, from the earliest to the latest
    Pickup Date of the table, keeps every row: with it the view is the one
    the other criteria alone give. *)
Theorem default_dates_keep_all df inp :
  is_table df ->
  rows df <> [] ->
  exists pickup min_date max_date,
    getitem df "Pickup Date" Pickup_Date = OK pickup /\
    Pd.min pickup = Some min_date /\
    Pd.max pickup = Some max_date /\
    filtered_df df (with_dates inp (St.DateTuple [min_date; max_date]))
    = filtered_df df (with_dates inp (St.DateTuple [])).
Proof.
  intros Ht Hne.
  assert (Hg : getitem df "Pickup Date" Pickup_Date
               = OK (map (fun ir => Pickup_Date (snd ir)) (rows df)))
    by (apply getitem_ok; column).
  destruct (rows df) as [|ir0 rs] eqn:Er; [congruence|].
  eexists. eexists. eexists.
  split; [exact Hg|]. split; [reflexivity|]. split; [reflexivity|].
  rewrite !(filtered_df_where _ Ht). f_equal. apply where_same.
  intros ir Hin. rewrite !keeps_all_satisfies. unfold satisfies.
  cbn [with_dates sel_driver sel_status sel_truck sel_state sel_city sel_dates].
  assert (Hd : In (Pickup_Date (snd ir))
                  (map (fun jr => Pickup_Date (snd jr)) (ir0 :: rs))).
  { apply in_column. exists ir. split; [|reflexivity].
    rewrite <- Er. exact Hin. }
  assert (Hr : in_dates
                 (St.DateTuple
                    [fold_left Z.min (map (fun jr => Pickup_Date (snd jr)) rs)
                               (Pickup_Date (snd ir0));
                     fold_left Z.max (map (fun jr => Pickup_Date (snd jr)) rs)
                               (Pickup_Date (snd ir0))])
                 (Pickup_Date (snd ir))).
  { cbn [in_dates]. split.
    - apply (@min_le (map (fun jr => Pickup_Date (snd jr)) (ir0 :: rs)));
        [reflexivity|exact Hd].
    - apply (@max_ge (map (fun jr => Pickup_Date (snd jr)) (ir0 :: rs)));
        [reflexivity|exact Hd]. }
  cbn [in_dates] in *. tauto.
Qed.

Lemma default_dates_keep_all_witness :
  is_table Scenario.two_loads_table /\
  rows Scenario.two_loads_table <> [] /\
  filtered_df Scenario.two_loads_table
              (with_dates Scenario.driver_A (St.DateTuple [19723; 19725]%Z))
  = filtered_df Scenario.two_loads_table
                (with_dates Scenario.driver_A (St.DateTuple [])).
Proof.
  assert (Ht : is_table Scenario.two_loads_table) by reflexivity.
  assert (Hne : rows Scenario.two_loads_table <> []) by discriminate.
  split; [exact Ht|]. split; [exact Hne|].
  destruct (default_dates_keep_all Scenario.driver_A Ht Hne)
    as (p & lo & hi & Hp & Hlo & Hhi & H).
  vm_compute in Hp. injection Hp as <-.
  vm_compute in Hlo. injection Hlo as <-.
  vm_compute in Hhi. injection Hhi as <-.
  exact H.
Defined.

(** *** The order of the grouped aggregates *)

Lemma Sorted_weaken A (R R' : A -> A -> Prop) l :
  (forall a b, R a b -> R' a b) -> Sorted R l -> Sorted R' l.
Proof.
  intro H. induction 1 as [|a l Hs IH Hd]; constructor; [exact IH|].
  destruct Hd; constructor. apply H. assumption.
Qed.

Lemma filter_map_length A B (f : A -> B) (p : B -> bool) l :
  List.length (filter p (map f l)) = List.length (filter (fun x => p (f x)) l).
Proof.
  induction l as [|x l IH]; simpl; [reflexivity|].
  destruct (p (f x)); simpl; rewrite IH; reflexivity.
Qed.

Lemma filter_eqb_positive K (eqb : K -> K -> bool) (s : Series K) k :
  (forall x y, eqb x y = true <-> x = y) ->
  In k s -> (1 <= List.length (filter (eqb k) s))%nat.
Proof.
  intros Heq. induction s as [|x s IH]; simpl; [tauto|].
  intros [->|Hin].
  - assert (E : eqb k k = true) by (apply Heq; reflexivity).
    rewrite E. simpl. lia.
  - destruct (eqb k x); simpl; [lia|apply IH; exact Hin].
Qed.

(** X12.  Count by State lists the states from the most frequent to the
    least; the count of a state is the number of rows of the view with that
    Pickup State, and is at least 1. *)
Theorem count_by_state_descending v t :
  s_counts v = OK t ->
  Sorted (fun a b => (snd b <= snd a)%nat) t /\
  forall k n, In (k, n) t -> n = loads_in_state v k /\ (1 <= n)%nat.
Proof.
  unfold s_counts, getitem.
  destruct (has_column v "Pickup State"); [|discriminate]. cbn [Py.bind].
  intro H. injection H as <-. unfold value_counts. split.
  - apply (@Sorted_weaken _ (ordered (fun a b : string * nat =>
                                        (snd b <=? snd a)%nat))).
    + intros a b. unfold ordered. apply Nat.leb_le.
    + apply sorted_Sorted. intros x y. rewrite !Nat.leb_le. lia.
  - intros k n Hin. rewrite sorted_In in Hin. apply in_map_iff in Hin.
    destruct Hin as (k' & E & Hk). injection E as -> <-.
    apply (proj1 (unique_In string_eqb_spec _ _)) in Hk.
    split.
    + unfold loads_in_state. apply filter_map_length.
    + apply filter_eqb_positive; [apply string_eqb_spec|exact Hk].
Qed.

Lemma count_by_state_descending_witness :
  s_counts Scenario.two_loads_table = OK [("TX", 1); ("CA", 1)]%string%nat /\
  loads_in_state Scenario.two_loads_table "CA" = 1%nat.
Proof.
  assert (H : s_counts Scenario.two_loads_table
              = OK [("TX", 1); ("CA", 1)]%string%nat) by reflexivity.
  split; [exact H|].
  symmetry. apply (proj2 (count_by_state_descending H) "CA"%string 1%nat).
  simpl. tauto.
Defined.

(** *** The average rate per mile *)




(** *** What a run leaves on the page *)

Lemma no_error_app (a b : Page) : no_error a -> no_error b -> no_error (a ++ b).
Proof.
  unfold no_error. intros Ha Hb. rewrite forallb_app, Ha, Hb. reflexivity.
Qed.

Lemma appends_ret A (a : A) : appends (St.ret (D := DataFrame Load) a).
Proof.
  intro page. exists []. split; [simpl; rewrite app_nil_r; reflexivity|reflexivity].
Qed.

Lemma appends_lift A (r : result A) : appends (St.lift (D := DataFrame Load) r).
Proof.
  intro page. exists []. split; [simpl; rewrite app_nil_r; reflexivity|reflexivity].
Qed.

Lemma appends_render e : is_error e = false -> appends (St.render e).
Proof.
  intros He page. exists [e]. split; [reflexivity|].
  unfold no_error. simpl. rewrite He. reflexivity.
Qed.

Lemma appends_bind A B (c : St.Script (DataFrame Load) A)
      (k : A -> St.Script (DataFrame Load) B) :
  appends c -> (forall a, appends (k a)) -> appends (St.bind c k).
Proof.
  intros Hc Hk page. unfold St.bind.
  destruct (Hc page) as (m1 & E1 & N1).
  destruct (c page) as [page1 [a|e]]; simpl in E1; subst page1.
  - destruct (Hk a (page ++ m1)) as (m2 & E2 & N2).
    exists (m1 ++ m2). split; [rewrite E2; apply eq_sym, app_assoc|].
    apply no_error_app; assumption.
  - exists m1. split; [reflexivity|exact N1].
Qed.

Ltac appends_step :=
  cbv zeta;
  first [ apply appends_lift
        | apply appends_ret
        | apply appends_render; reflexivity
        | apply appends_bind; [appends_step | intro; appends_step] ].

Lemma appends_dashboard df inp : appends (dashboard df inp).
Proof.
  unfold dashboard, St.markdown, St.multiselect, St.date_input, St.metric,
    St.plotly_chart, St.download_button.
  appends_step.
Qed.

Lemma appends_try_block fs inp : appends (try_block fs inp).
Proof.
  unfold try_block. apply appends_bind; [apply appends_lift|].
  intro df. apply appends_dashboard.
Qed.

(** X17.  The script is its [try] body inside the page configuration, the
    style sheet and the handler, and that body only adds elements other than
    error messages.  For any such body the run ends normally, the page
    keeps the configuration, the style sheet and all the body rendered, and
    an error message appears at most once, as the last element, exactly when
    the body raised, with the text of the exception. *)
Theorem run_page_shape :
  (forall fs inp,
      run fs inp = script_around (try_block fs inp) [] /\
      appends (try_block fs inp)) /\
  (forall body,
      appends body ->
      exists content,
        no_error content /\
        fst (body preamble) = preamble ++ content /\
        match snd (body preamble) with
        | OK _ => script_around body [] = (preamble ++ content, OK tt)
        | Raise e =>
            script_around body []
            = (preamble ++ content ++ [St.Error ("Error: " ++ str e)], OK tt)
        end).
Proof.
  split.
  - intros fs inp. split; [reflexivity|apply appends_try_block].
  - intros body Hb. destruct (Hb preamble) as (content & E & N).
    exists content. split; [exact N|]. split; [exact E|].
    unfold script_around, St.bind, St.set_page_config, St.markdown, St.render,
      St.try_except. simpl.
    change [St.PageConfig "Trucking Analytics" "wide"; St.Markdown St.page_style]
      with preamble.
    destruct (body preamble) as [page [u|e]]; simpl in E; subst page; cbn [snd].
    + reflexivity.
    + unfold St.error, St.render.
      first [reflexivity | rewrite <- app_assoc; reflexivity].
Qed.

Lemma run_page_shape_witness :
  appends (try_block Scenario.no_broker Scenario.driver_A) /\
  exists content,
    no_error content /\
    run Scenario.no_broker Scenario.driver_A
    = (preamble ++ content ++ [St.Error "Error: 'Broker Name'"], OK tt).
Proof.
  destruct run_page_shape as [Hrun Hshape].
  destruct (Hrun Scenario.no_broker Scenario.driver_A) as [Er Ha].
  split; [exact Ha|].
  destruct (Hshape _ Ha) as (content & N & E & Hm).
  exists content. split; [exact N|]. rewrite Er.
  assert (Hs : snd (try_block Scenario.no_broker Scenario.driver_A preamble)
               = Raise (KeyError "Broker Name")) by reflexivity.
  rewrite Hs in Hm. exact Hm.
Defined.

End AppProps.

(* ===================================================================== *)
(** ** Facts about the export *)
(* ===================================================================== *)

Module XlsxFacts.
Import Py Pd App Spec Xlsx.






End XlsxFacts.

(* ===================================================================== *)
(** ** Line 48 in int64 and float64 *)
(* ===================================================================== *)

Module NpFacts.
Import Np.

(** *** Rounding never produces a NaN *)

Lemma shr_1_nonneg mrs : (0 <= shr_m mrs)%Z -> (0 <= shr_m (shr_1 mrs))%Z.
Proof.
  destruct mrs as [m r s]. simpl. destruct m as [|p|p]; simpl.
  - lia.
  - destruct p; simpl; lia.
  - lia.
Qed.

Lemma iter_pos_invariant {A} (P : A -> Prop) (f : A -> A) :
  (forall x, P x -> P (f x)) -> forall p x, P x -> P (iter_pos f p x).
Proof.
  intros Hf p. induction p as [p IH|p IH|]; intros x Hx; simpl; auto.
Qed.

Lemma shr_fexp_nonneg m e l :
  (0 <= m)%Z -> (0 <= shr_m (fst (shr_fexp prec emax m e l)))%Z.
Proof.
  intro Hm. unfold shr_fexp, shr.
  assert (H0 : (0 <= shr_m (shr_record_of_loc m l))%Z).
  { destruct l as [|[ | | ]]; exact Hm. }
  destruct (fexp prec emax (Zdigits2 m + e) - e)%Z as [|p|p]; simpl;
    try exact H0.
  apply (@iter_pos_invariant _ (fun mrs => (0 <= shr_m mrs)%Z) shr_1); [|exact H0].
  exact shr_1_nonneg.
Qed.

Lemma round_nearest_even_nonneg m l :
  (0 <= m)%Z -> (0 <= round_nearest_even m l)%Z.
Proof.
  intro Hm. destruct l as [|[ | | ]]; simpl; try lia.
  destruct (Z.even m); lia.
Qed.

Lemma binary_round_aux_not_nan sx mx ex lx :
  (0 <= mx)%Z -> isnan (binary_round_aux prec emax sx mx ex lx) = false.
Proof.
  intro Hm. unfold binary_round_aux.
  pose proof (@shr_fexp_nonneg mx ex lx Hm) as H1.
  destruct (shr_fexp prec emax mx ex lx) as [mrs' e']. simpl in H1.
  pose proof (@shr_fexp_nonneg _ e' loc_Exact
                (@round_nearest_even_nonneg _ (loc_of_shr_record mrs') H1))
    as H2.
  destruct (shr_fexp prec emax _ e' loc_Exact) as [mrs'' e'']. simpl in H2.
  destruct (shr_m mrs'') as [|p|p]; [reflexivity| |lia].
  destruct (e'' <=? emax - prec)%Z; reflexivity.
Qed.

Lemma binary_normalize_not_nan m e szero :
  isnan (binary_normalize prec emax m e szero) = false.
Proof.
  unfold binary_normalize, binary_round.
  destruct m as [|p|p]; [reflexivity| |];
    destruct (shl_align _ _ _) as [mz ez]; apply binary_round_aux_not_nan; lia.
Qed.

Lemma cast_not_nan z : isnan (cast z) = false.
Proof. apply binary_normalize_not_nan. Qed.





(** *** int64 *)


Lemma wrap_range z : (- 2 ^ 63 <= wrap z < 2 ^ 63)%Z.
Proof.
  unfold wrap. pose proof (Z.mod_pos_bound (z + 2 ^ 63) (2 ^ 64)). lia.
Qed.


(** *** Columns, position by position *)




Lemma astype_length a : List.length (astype_float64 a) = size a.
Proof. destruct a; simpl; [apply length_map|reflexivity]. Qed.











(** *** A row at a time *)



Lemma missing_isnan s : isnan (to_float s) = missing s.
Proof. destruct s; simpl; [apply cast_not_nan|reflexivity]. Qed.









(** *** Line 48 *)

(** The three constants are the doubles a sheet holding 0.3, 0.1 and 0.2
    is read to: the correctly rounded quotients 3/10, 1/10 and 2/10. *)
Example doubles_of_decimals :
  SFdiv prec emax (cast 3) (cast 10) = d0_3 /\
  SFdiv prec emax (cast 1) (cast 10) = d0_1 /\
  SFdiv prec emax (cast 2) (cast 10) = d0_2.
Proof. repeat split; vm_compute; reflexivity. Qed.




End NpFacts.
